(** * AgenticAI frontend: a shallow embedding of the wizard and its components

    The repository is a Next.js frontend made of four React components:
    - [Page]             app/page.tsx: the three-step wizard ([Home]);
    - [ProjectsPage]     the list of generated projects;
    - [ValidationReport] components/validation-report.tsx;
    - [FileBrowser]      components/file-browser.tsx.

    Every handler of these components is an [async] function with one
    [try]/[catch]/[finally] around one [fetch].  A handler is embedded as a
    computation in a state-and-trace monad over the component's React
    state; what the network answers is an argument of the handler (a
    [FetchOutcome]), so a statement quantified over outcomes covers every
    way the request can end. *)

From Stdlib Require Import ZArith Lia Ascii.
From stdpp Require Import base strings list gmap sets sorting.

#[local] Set Warnings "-clear-no-such-hyp".

Local Open Scope string_scope.

(** ** Data model (the types exported by app/page.tsx) *)

Inductive FieldType := TString | TNumber | TBoolean | TDate | TEmail | TText.

Record FieldDefinition := {
  field_id : string;
  field_name : string;
  field_label : string;
  field_type : FieldType;
  field_required : bool;
  field_defaultValue : option string
}.

Record Operations := {
  op_create : bool;
  op_read : bool;
  op_update : bool;
  op_delete : bool
}.

Record SchemaDefinition := {
  entityName : string;
  fields : list FieldDefinition;
  operations : Operations
}.

Record GeneratedFiles := {
  gf_sql : option string;
  gf_schema : option string;
  gf_orm : option string;
  gf_api : option string;
  gf_frontend : option string;
  gf_templates : option string;
  gf_requirements : option string;
  gf_readme : option string
}.

Record CodePreview := {
  cp_schema : option string;
  cp_api : option string
}.

(** [projectId?: string] and [codePreview?: ...] are optional members of
    the TypeScript type; the other four members are mandatory. *)
Record ValidationResult := {
  success : bool;
  errors : list string;
  warnings : list string;
  generatedFiles : GeneratedFiles;
  projectId : option string;
  codePreview : option CodePreview
}.

(** The second argument of [handlePromptSubmit] is typed [any]; the handler
    reads its members [entityName] and [operations]. *)
Record Params := {
  params_entityName : string;
  params_operations : list string
}.

(** ** The browser: requests, observable effects, outcomes of a fetch *)

Inductive Method := GET | POST.

(** What [JSON.stringify] is applied to in the three POST requests of the
    wizard; the other requests carry no body. *)
Inductive Body :=
| NoBody
| GenerateSchemaBody (prompt entity : string) (ops : list string) (model : string)
| RefineSchemaBody (currentSchema : SchemaDefinition) (feedback model : string)
| GenerateAppBody (schema : SchemaDefinition) (model : string).

Record Request := {
  req_method : Method;
  req_url : string;
  req_body : Body
}.

(** What a [catch] clause can receive: the rejection of [fetch] itself, an
    [Error] thrown by the handler, the rejection of [response.json()] or of
    [response.blob()]. *)
Inductive Exn :=
| FetchRejected
| Error (message : string)
| BodyRejected.

(** [SetIsGenerating b] is the call [setIsGenerating(b)] of the wizard.
    [isGenerating] is the flag the wizard hands to both of its children to
    tell them a request is pending; the call of its setter is recorded in
    the trace, so that the trace tells on which side of a [fetch] the flag
    is set. *)
Inductive Effect :=
| Fetch (r : Request)
| Alert (message : string)
| ConsoleError (label : string) (e : Exn)
| ConsoleLog (label : string)
| SaveAs (filename : string)
| SetIsGenerating (b : bool).

(** The answer of the network to one [fetch]: the promise rejects, or it
    resolves to a response with a status; [payload] is what reading the
    body ([json()] or [blob()]) yields, [None] when that read rejects. *)
Inductive FetchOutcome (A : Type) :=
| Rejects
| Responds (status : Z) (payload : option A).
Arguments Rejects {A}.
Arguments Responds {A} status payload.

(** [response.ok]: the status is in the range 200-299. *)
Definition ok (status : Z) : bool :=
  ((200 <=? status) && (status <=? 299))%Z.

(** The common head of every [try] block:
      const response = await fetch(...)
      if (!response.ok) throw new Error(failure)
      const data = await response.json()
    Either control reaches the rest of the block with [data], or it goes to
    the [catch] clause with the exception. *)
Definition settle {A} (failure : string) (net : FetchOutcome A) : Exn + A :=
  match net with
  | Rejects => inl FetchRejected
  | Responds status payload =>
      if ok status then
        match payload with
        | Some data => inr data
        | None => inl BodyRejected
        end
      else inl (Error failure)
  end.

(** A fetch that "rejects or returns a non-2xx status". *)
Definition failed {A} (net : FetchOutcome A) : bool :=
  match net with
  | Rejects => true
  | Responds status _ => negb (ok status)
  end.

(** ** Handlers: state of the component and trace of effects *)

Definition M (S A : Type) : Type := S → A * S * list Effect.

Global Instance M_ret {S} : MRet (M S) := λ A a st, (a, st, []).
Global Instance M_bind {S} : MBind (M S) := λ A B k m st,
  let '(a, st1, t1) := m st in
  let '(b, st2, t2) := k a st1 in
  (b, st2, (t1 ++ t2)%list).

Definition gets {S A} (proj : S → A) : M S A := λ st, (proj st, st, []).
Definition modify {S} (f : S → S) : M S unit := λ st, (tt, f st, []).
Definition emit {S} (e : Effect) : M S unit := λ st, (tt, st, [e]).
Definition skip {S} : M S unit := mret tt.

Definition fetch {S} (r : Request) : M S unit := emit (Fetch r).
Definition alert {S} (message : string) : M S unit := emit (Alert message).
Definition console_error {S} (label : string) (e : Exn) : M S unit :=
  emit (ConsoleError label e).
Definition console_log {S} (label : string) : M S unit := emit (ConsoleLog label).

Definition state_after {S A} (m : M S A) (st : S) : S := (m st).1.2.
Definition trace_of {S A} (m : M S A) (st : S) : list Effect := (m st).2.
Definition result_of {S A} (m : M S A) (st : S) : A := (m st).1.1.

(** Projections of a trace. *)
Definition alerts (t : list Effect) : list string :=
  omap (λ e, match e with Alert m => Some m | _ => None end) t.
Definition fetches (t : list Effect) : list Request :=
  omap (λ e, match e with Fetch r => Some r | _ => None end) t.
Definition saved (t : list Effect) : list string :=
  omap (λ e, match e with SaveAs f => Some f | _ => None end) t.

(** The request ended in a way that takes control through the whole [try]
    block: the promise resolved, [response.ok] holds and the body could be
    read. *)
Definition succeeded {A} (net : FetchOutcome A) : bool :=
  match net with
  | Responds status (Some _) => ok status
  | _ => false
  end.

(** ** app/page.tsx *)

Module Page.

Inductive Step := prompt | mockup | report.

Record State := {
  currentStep : Step;
  schema : option SchemaDefinition;
  validationResult : option ValidationResult;
  isGenerating : bool
}.

Definition initial : State :=
  {| currentStep := prompt; schema := None;
     validationResult := None; isGenerating := false |}.

Definition setCurrentStep (s : Step) : M State unit :=
  modify (λ st, {| currentStep := s; schema := schema st;
                   validationResult := validationResult st;
                   isGenerating := isGenerating st |}).
Definition setSchema (s : option SchemaDefinition) : M State unit :=
  modify (λ st, {| currentStep := currentStep st; schema := s;
                   validationResult := validationResult st;
                   isGenerating := isGenerating st |}).
Definition setValidationResult (r : option ValidationResult) : M State unit :=
  modify (λ st, {| currentStep := currentStep st; schema := schema st;
                   validationResult := r;
                   isGenerating := isGenerating st |}).
Definition setIsGenerating (b : bool) : M State unit :=
  modify (λ st, {| currentStep := currentStep st; schema := schema st;
                   validationResult := validationResult st;
                   isGenerating := b |}) ;;
  emit (SetIsGenerating b).

Definition generate_schema_request (p : string) (params : Params) : Request :=
  {| req_method := POST;
     req_url := "http://localhost:8000/api/generate-schema";
     req_body := GenerateSchemaBody p (params_entityName params)
                   (params_operations params) "gpt-4o-mini" |}.

Definition refine_schema_request (current : SchemaDefinition) (feedback : string) : Request :=
  {| req_method := POST;
     req_url := "http://localhost:8000/api/refine-schema";
     req_body := RefineSchemaBody current feedback "gpt-4o-mini" |}.

Definition generate_app_request (current : SchemaDefinition) : Request :=
  {| req_method := POST;
     req_url := "http://localhost:8000/api/generate-app";
     req_body := GenerateAppBody current "gpt-4o-mini" |}.

(** Each handler is cut at its [await fetch(...)]: [_begin] is the
    synchronous part that runs when the handler is called and answers
    whether a request is now pending; [_resume] is what runs once the
    request has ended. *)

Definition handlePromptSubmit_begin (p : string) (params : Params) : M State bool :=
  setIsGenerating true ;;
  fetch (generate_schema_request p params) ;;
  mret true.

Definition handlePromptSubmit_resume (net : FetchOutcome SchemaDefinition) : M State unit :=
  match settle "Failed to generate schema" net with
  | inr generatedSchema =>
      setSchema (Some generatedSchema) ;;
      setCurrentStep mockup
  | inl error =>
      console_error "Error generating schema:" error ;;
      alert "Failed to generate schema. Make sure the backend is running on port 8000."
  end ;;
  setIsGenerating false.

Definition handlePromptSubmit (p : string) (params : Params)
    (net : FetchOutcome SchemaDefinition) : M State unit :=
  pending ← handlePromptSubmit_begin p params;
  if pending : bool then handlePromptSubmit_resume net else skip.

Definition handleSchemaUpdate (updatedSchema : SchemaDefinition) : M State unit :=
  setSchema (Some updatedSchema).

Definition handleRegenerate_begin (feedback : string) : M State bool :=
  current ← gets schema;
  match current with
  | None => mret false
  | Some current =>
      setIsGenerating true ;;
      fetch (refine_schema_request current feedback) ;;
      mret true
  end.

Definition handleRegenerate_resume (net : FetchOutcome SchemaDefinition) : M State unit :=
  match settle "Failed to refine schema" net with
  | inr refinedSchema =>
      setSchema (Some refinedSchema)
  | inl error =>
      console_error "Error refining schema:" error ;;
      alert "Failed to refine schema. Make sure the backend is running."
  end ;;
  setIsGenerating false.

Definition handleRegenerate (feedback : string)
    (net : FetchOutcome SchemaDefinition) : M State unit :=
  pending ← handleRegenerate_begin feedback;
  if pending : bool then handleRegenerate_resume net else skip.

Definition handleConfirm_begin : M State bool :=
  current ← gets schema;
  match current with
  | None => mret false
  | Some current =>
      setIsGenerating true ;;
      fetch (generate_app_request current) ;;
      mret true
  end.

Definition handleConfirm_resume (net : FetchOutcome ValidationResult) : M State unit :=
  match settle "Failed to generate application" net with
  | inr result =>
      setValidationResult (Some result) ;;
      setCurrentStep report
  | inl error =>
      console_error "Error generating app:" error ;;
      alert "Failed to generate application. Make sure the backend is running."
  end ;;
  setIsGenerating false.

Definition handleConfirm (net : FetchOutcome ValidationResult) : M State unit :=
  pending ← handleConfirm_begin;
  if pending : bool then handleConfirm_resume net else skip.

Definition handleStartOver : M State unit :=
  setCurrentStep prompt ;;
  setSchema None ;;
  setValidationResult None.

(** The three actions of the wizard that talk to the backend, under one
    name each, with the type of the body the backend answers. *)
Inductive Action :=
| GenerateSchema (p : string) (params : Params)
| RefineSchema (feedback : string)
| GenerateApp.

Definition Reply (a : Action) : Type :=
  match a with
  | GenerateSchema _ _ => SchemaDefinition
  | RefineSchema _ => SchemaDefinition
  | GenerateApp => ValidationResult
  end.

Definition begin (a : Action) : M State bool :=
  match a with
  | GenerateSchema p params => handlePromptSubmit_begin p params
  | RefineSchema feedback => handleRegenerate_begin feedback
  | GenerateApp => handleConfirm_begin
  end.

Definition resume (a : Action) : FetchOutcome (Reply a) → M State unit :=
  match a with
  | GenerateSchema _ _ => handlePromptSubmit_resume
  | RefineSchema _ => handleRegenerate_resume
  | GenerateApp => handleConfirm_resume
  end.

Definition perform (a : Action) (net : FetchOutcome (Reply a)) : M State unit :=
  match a return FetchOutcome (Reply a) → M State unit with
  | GenerateSchema p params => handlePromptSubmit p params
  | RefineSchema feedback => handleRegenerate feedback
  | GenerateApp => handleConfirm
  end net.

(** The main area of [Home]: three conditional children, one per step.
      [currentStep === "prompt" && <PromptScreen .../>]
      [currentStep === "mockup" && schema && <MockupEditor .../>]
      [currentStep === "report" && validationResult && <ValidationReport .../>]
    [Blank]: none of the three is rendered. *)
Inductive Main :=
| ShowPromptScreen (generating : bool)
| ShowMockupEditor (current : SchemaDefinition) (generating : bool)
| ShowValidationReport (result : ValidationResult)
| Blank.

Definition main (st : State) : Main :=
  match currentStep st with
  | prompt => ShowPromptScreen (isGenerating st)
  | mockup =>
      match schema st with
      | Some current => ShowMockupEditor current (isGenerating st)
      | None => Blank
      end
  | report =>
      match validationResult st with
      | Some result => ShowValidationReport result
      | None => Blank
      end
  end.

(** What can happen to the mounted page: a child calls one of the three
    asynchronous handlers (which runs up to its [await]), a pending request
    ends (the rest of its handler runs), the editor reports an edit, the
    report asks to start over. *)
Inductive Event :=
| Called (a : Action)
| Ended (a : Action) (net : FetchOutcome (Reply a))
| Edited (updatedSchema : SchemaDefinition)
| StartedOver.

Definition react (e : Event) : M State unit :=
  match e with
  | Called a => begin a ;; skip
  | Ended a net => resume a net
  | Edited updatedSchema => handleSchemaUpdate updatedSchema
  | StartedOver => handleStartOver
  end.

Fixpoint react_all (es : list Event) : M State unit :=
  match es with
  | [] => skip
  | e :: es' => react e ;; react_all es'
  end.

End Page.

(** ** JavaScript values used by the other components *)

(** [Array.prototype.sort(compareFn)].  ECMAScript leaves the algorithm to
    the engine and fixes the result: the elements in an order that agrees
    with [compareFn], elements that compare equal keeping their relative
    order (the sort is stable).  The model is the stable insertion sort:
    [x] is placed before the first [y] with [compareFn x y <= 0]. *)
Fixpoint sort_insert {A} (compareFn : A → A → Z) (x : A) (l : list A) : list A :=
  match l with
  | [] => [x]
  | y :: l' =>
      if (compareFn x y <=? 0)%Z then x :: y :: l'
      else y :: sort_insert compareFn x l'
  end.

Definition array_sort {A} (compareFn : A → A → Z) (l : list A) : list A :=
  foldr (sort_insert compareFn) [] l.

(** A value of type [any] that is only stored and passed on, kept as its
    JSON text. *)
Inductive Any := any_of (json : string).

Inductive Blob := blob_of (bytes : string).

(** The string is truthy: defined and not empty ([!x] is false). *)
Definition truthy (x : option string) : option string :=
  match x with
  | Some s => if decide (s = "") then None else Some s
  | None => None
  end.

(** [s.split(sep)] for a separator of one character: the segments between
    the occurrences of [sep], never an empty array (["".split(".")] is
    [[""]]). *)
Fixpoint split_on (sep : ascii) (s : string) : list string :=
  match s with
  | EmptyString => [EmptyString]
  | String c s' =>
      if Ascii.eqb c sep then EmptyString :: split_on sep s'
      else
        match split_on sep s' with
        | segment :: segments => String c segment :: segments
        | [] => [String c EmptyString]
        end
  end.

(** [s.toLowerCase()] on the letters A-Z; file names are taken as ASCII
    strings. *)
Definition lower_ascii (c : ascii) : ascii :=
  let n := nat_of_ascii c in
  if ((65 <=? n) && (n <=? 90))%nat then ascii_of_nat (n + 32) else c.

Fixpoint toLowerCase (s : string) : string :=
  match s with
  | EmptyString => EmptyString
  | String c s' => String (lower_ascii c) (toLowerCase s')
  end.

(** The members every object literal inherits from [Object.prototype]:
    reading one of these keys on [{}] gives a function (an object for
    [__proto__]), a truthy value, also when the object has no such key of
    its own. *)
Definition Object_prototype : list string :=
  ["constructor"; "__defineGetter__"; "__defineSetter__"; "hasOwnProperty";
   "__lookupGetter__"; "__lookupSetter__"; "isPrototypeOf";
   "propertyIsEnumerable"; "toString"; "valueOf"; "__proto__";
   "toLocaleString"].

Definition nl : string := String (Ascii.ascii_of_nat 10) "".

Record Instructions := {
  railway : string;
  render : string;
  docker : string
}.

Record DeployResponse := { instructions : Instructions }.

Definition download_request (project : string) : Request :=
  {| req_method := GET;
     req_url := "http://localhost:8000/api/projects/" +:+ project +:+ "/download";
     req_body := NoBody |}.

Definition deploy_request (project : string) : Request :=
  {| req_method := POST;
     req_url := "http://localhost:8000/api/projects/" +:+ project +:+ "/deploy";
     req_body := NoBody |}.

(** The anchor element created, clicked and removed by both download
    handlers: the browser saves the blob under [a.download]. *)
Definition save_blob {S} (b : Blob) (filename : string) : M S unit :=
  emit (SaveAs filename).

(** ** The projects page *)

Module ProjectsPage.

Record Project := {
  id : string;
  entityName : string;
  created_at : Z;
  status : string;
  schema : Any;
  path : string
}.

Record ProjectsResponse := { projects_of : list Project }.

Record State := {
  projects : list Project;
  loading : bool;
  selectedProject : option string
}.

Definition initial : State :=
  {| projects := []; loading := true; selectedProject := None |}.

Definition setProjects (ps : list Project) : M State unit :=
  modify (λ st, {| projects := ps; loading := loading st;
                   selectedProject := selectedProject st |}).
Definition setLoading (b : bool) : M State unit :=
  modify (λ st, {| projects := projects st; loading := b;
                   selectedProject := selectedProject st |}).
Definition setSelectedProject (p : option string) : M State unit :=
  modify (λ st, {| projects := projects st; loading := loading st;
                   selectedProject := p |}).

Definition projects_request : Request :=
  {| req_method := GET;
     req_url := "http://localhost:8000/api/projects";
     req_body := NoBody |}.

(** [(a, b) => b.created_at - a.created_at].  [created_at] is a finite
    number (a timestamp read from JSON).  Every finite double is an integer
    multiple of the smallest one, and the difference of two finite doubles
    has the sign of their exact difference: [created_at] is taken as that
    integer, and the comparator over [Z]. *)
Definition by_created_at_desc (a b : Project) : Z :=
  (created_at b - created_at a)%Z.

Definition loadProjects (net : FetchOutcome ProjectsResponse) : M State unit :=
  fetch projects_request ;;
  match settle "Failed to load projects" net with
  | inr data =>
      setProjects (array_sort by_created_at_desc (projects_of data))
  | inl error =>
      console_error "Error loading projects:" error ;;
      alert "Failed to load projects. Make sure the backend is running."
  end ;;
  setLoading false.

Definition handleDownload (project : string) (net : FetchOutcome Blob) : M State unit :=
  fetch (download_request project) ;;
  match settle "Failed to download project" net with
  | inr blob => save_blob blob (project +:+ ".zip")
  | inl error =>
      console_error "Error downloading project:" error ;;
      alert "Failed to download project"
  end.

Definition handleDeploy (project : string) (net : FetchOutcome DeployResponse) : M State unit :=
  fetch (deploy_request project) ;;
  match settle "Failed to get deployment instructions" net with
  | inr data =>
      alert ("Deployment Instructions:" +:+ nl +:+ nl +:+
             "Railway:" +:+ nl +:+ railway (instructions data) +:+ nl +:+ nl +:+
             "Render:" +:+ nl +:+ render (instructions data) +:+ nl +:+ nl +:+
             "Docker:" +:+ nl +:+ docker (instructions data))
  | inl error =>
      console_error "Error getting deployment instructions:" error ;;
      alert "Failed to get deployment instructions"
  end.

(** [confirmed] is the answer of the [confirm(...)] dialog. *)
Definition handleDelete (project : string) (confirmed : bool) : M State unit :=
  if confirmed then alert "Delete functionality coming soon!" else skip.

(** What the page shows: the file browser of the selected project, or the
    loading text, or the card of the empty list, or the grid of cards. *)
Inductive Screen :=
| BrowseProject (project : string)
| LoadingProjects
| NoProjectsYet
| Grid (cards : list Project).

Definition render (st : State) : Screen :=
  match truthy (selectedProject st) with
  | Some project => BrowseProject project
  | None =>
      if loading st then LoadingProjects
      else
        match projects st with
        | [] => NoProjectsYet
        | cards => Grid cards
        end
  end.

End ProjectsPage.

(** ** components/validation-report.tsx *)

Module ValidationReport.

(** The component has no state of its own: [result] is a prop. *)
Definition State := unit.

Definition handleDownload (result : ValidationResult) (net : FetchOutcome Blob) : M State unit :=
  match truthy (projectId result) with
  | None => alert "Project ID not found"
  | Some project =>
      console_log "[v0] Downloading project:" ;;
      fetch (download_request project) ;;
      match settle "Failed to download project" net with
      | inr blob =>
          save_blob blob (project +:+ ".zip") ;;
          console_log "[v0] Download complete"
      | inl error =>
          console_error "[v0] Error downloading project:" error ;;
          alert "Failed to download project. Make sure the backend is running."
      end
  end.

Definition handleDeploy (result : ValidationResult) (net : FetchOutcome DeployResponse) : M State unit :=
  match truthy (projectId result) with
  | None => alert "Project ID not found"
  | Some project =>
      console_log "[v0] Deploying project:" ;;
      fetch (deploy_request project) ;;
      match settle "Failed to get deployment instructions" net with
      | inr data =>
          console_log "[v0] Deployment instructions:" ;;
          alert ("Deployment Instructions:" +:+ nl +:+ nl +:+
                 "Railway: " +:+ railway (instructions data) +:+ nl +:+
                 "Render: " +:+ render (instructions data) +:+ nl +:+
                 "Docker: " +:+ docker (instructions data))
      | inl error =>
          console_error "[v0] Error getting deployment instructions:" error ;;
          alert "Failed to get deployment instructions. Make sure the backend is running."
      end
  end.

(** [{result.success && (result as any).projectId && <FileBrowser .../>}]:
    the project whose files are browsed, if the browser is rendered. *)
Definition browsed_project (result : ValidationResult) : option string :=
  if success result then truthy (projectId result) else None.

End ValidationReport.

(** ** components/file-browser.tsx *)

Module FileBrowser.

Record FileInfo := {
  name : string;
  path : string;
  type : string;
  size : Z
}.

Record FileContentResponse := { content : string }.

Record State := {
  files : list FileInfo;
  selectedFile : option string;
  fileContent : string;
  loading : bool;
  expandedFolders : gset string
}.

Definition initial : State :=
  {| files := []; selectedFile := None; fileContent := "";
     loading := true; expandedFolders := {["root"]} |}.

Definition setFiles (fs : list FileInfo) : M State unit :=
  modify (λ st, {| files := fs; selectedFile := selectedFile st;
                   fileContent := fileContent st; loading := loading st;
                   expandedFolders := expandedFolders st |}).
Definition setSelectedFile (f : option string) : M State unit :=
  modify (λ st, {| files := files st; selectedFile := f;
                   fileContent := fileContent st; loading := loading st;
                   expandedFolders := expandedFolders st |}).
Definition setFileContent (c : string) : M State unit :=
  modify (λ st, {| files := files st; selectedFile := selectedFile st;
                   fileContent := c; loading := loading st;
                   expandedFolders := expandedFolders st |}).
Definition setLoading (b : bool) : M State unit :=
  modify (λ st, {| files := files st; selectedFile := selectedFile st;
                   fileContent := fileContent st; loading := b;
                   expandedFolders := expandedFolders st |}).
Definition setExpandedFolders (e : gset string) : M State unit :=
  modify (λ st, {| files := files st; selectedFile := selectedFile st;
                   fileContent := fileContent st; loading := loading st;
                   expandedFolders := e |}).

Section Component.

(** The prop of the component. *)
Variable projectId : string.

Definition files_request : Request :=
  {| req_method := GET;
     req_url := "http://localhost:8000/api/projects/" +:+ projectId +:+ "/files";
     req_body := NoBody |}.

Definition content_request (filePath : string) : Request :=
  {| req_method := GET;
     req_url := "http://localhost:8000/api/projects/" +:+ projectId +:+ "/files/" +:+ filePath;
     req_body := NoBody |}.

(** [loadFileContent] up to its [await fetch(...)]. *)
Definition loadFileContent_begin (filePath : string) : M State unit :=
  console_log "[v0] Loading file content:" ;;
  setSelectedFile (Some filePath) ;;
  setFileContent "Loading..." ;;
  fetch (content_request filePath).

(** [loadFileContent] once its request has ended. *)
Definition loadFileContent_resume (net : FetchOutcome FileContentResponse) : M State unit :=
  match settle "Failed to load file content" net with
  | inr data =>
      console_log "[v0] Loaded file content for:" ;;
      setFileContent (content data)
  | inl error =>
      console_error "[v0] Error loading file content:" error ;;
      setFileContent "Error loading file content"
  end.

Definition loadFileContent (filePath : string)
    (net : FetchOutcome FileContentResponse) : M State unit :=
  loadFileContent_begin filePath ;;
  loadFileContent_resume net.

(** [loadFiles] calls [loadFileContent(data[0].path)] without awaiting it:
    the call runs up to its own [await], then [loadFiles] goes on to its
    [finally]; the request for the content is left pending. *)
Definition loadFiles (net : FetchOutcome (list FileInfo)) : M State unit :=
  console_log "[v0] Loading files for project:" ;;
  fetch files_request ;;
  match settle "Failed to load files" net with
  | inr data =>
      console_log "[v0] Loaded files:" ;;
      setFiles data ;;
      match data with
      | first :: _ => loadFileContent_begin (path first)
      | [] => skip
      end
  | inl error =>
      console_error "[v0] Error loading files:" error
  end ;;
  setLoading false.

End Component.

Definition toggleFolder (folder : string) : M State unit :=
  expanded ← gets expandedFolders;
  let newExpanded :=
    if decide (folder ∈ expanded) then expanded ∖ {[folder]}
    else expanded ∪ {[folder]} in
  setExpandedFolders newExpanded.

(** The right-hand card: [selectedFile ? <file view> : <placeholder>].
    The header of the file view (base name, language badge) is derived from
    [selectedFile] alone and is not part of the model. *)
Inductive Viewer :=
| FileView (file : string) (code : string)
| Placeholder (text : string).

Definition viewer (st : State) : Viewer :=
  match truthy (selectedFile st) with
  | Some file => FileView file (fileContent st)
  | None => Placeholder "Select a file to view its contents"
  end.

Inductive Screen :=
| LoadingCard (text : string)
| Browser (expanded : gset string) (right : Viewer).

Definition render (st : State) : Screen :=
  if loading st then LoadingCard "Loading files..."
  else Browser (expandedFolders st) (viewer st).

(** [filename.split(".").pop()?.toLowerCase()], then [ext || ""]: [split]
    never gives an empty array, so [pop] always gives a string. *)
Definition getFileExtension (filename : string) : string :=
  toLowerCase (List.last (split_on "."%char filename) EmptyString).

Definition languageMap : gmap string string :=
  list_to_map
    [("py", "python"); ("js", "javascript"); ("ts", "typescript");
     ("tsx", "typescript"); ("jsx", "javascript"); ("html", "html");
     ("css", "css"); ("json", "json"); ("md", "markdown"); ("txt", "text")].

(** What [languageMap[ext] || "text"] evaluates to: the language of the
    table, or, when [ext] is no key of the table, the member inherited from
    [Object.prototype] if [ext] names one (a truthy value that is not a
    string), or "text". *)
Inductive Badge :=
| Language (language : string)
| Inherited (member : string).

Definition getLanguageFromExtension (filename : string) : Badge :=
  let ext := getFileExtension filename in
  match languageMap !! ext with
  | Some language => Language language
  | None =>
      if bool_decide (ext ∈ Object_prototype) then Inherited ext
      else Language "text"
  end.

(** [parts.length > 1 ? parts[0] : "root"] for [parts = file.path.split("/")]. *)
Definition folder_of (file : FileInfo) : string :=
  match split_on "/"%char (path file) with
  | folder :: _ :: _ => folder
  | _ => "root"
  end.

(** One turn of [files.forEach(...)] on the object [fileTree]:
      if (!fileTree[folder]) fileTree[folder] = []
      fileTree[folder].push(file)
    A folder already in the tree gets the file at the end of its array.  A
    folder not yet in the tree gets a new array, unless its name is a
    member of [Object.prototype]: then [fileTree[folder]] is truthy, no
    array is created and [push] is not a function of what is read, a
    [TypeError] ([None]). *)
Definition add_file (tree : gmap string (list FileInfo)) (file : FileInfo)
    : option (gmap string (list FileInfo)) :=
  let folder := folder_of file in
  match tree !! folder with
  | Some folderFiles => Some (<[folder := (folderFiles ++ [file])%list]> tree)
  | None =>
      if bool_decide (folder ∈ Object_prototype) then None
      else Some (<[folder := [file]]> tree)
  end.

Fixpoint add_files (tree : gmap string (list FileInfo)) (fs : list FileInfo)
    : option (gmap string (list FileInfo)) :=
  match fs with
  | [] => Some tree
  | file :: fs' =>
      match add_file tree file with
      | Some tree' => add_files tree' fs'
      | None => None
      end
  end.

(** The object [fileTree] built at each render, as a map from folder to
    files; [None] when building it throws.  The order in which
    [Object.entries] lists the folders is not part of the model. *)
Definition fileTree (st : State) : option (gmap string (list FileInfo)) :=
  add_files ∅ (files st).

(** The files of the folders that are expanded, in the order of [files].
    These are the files with a button in the left card in the states in
    which the card shows its tree: the tree builds and loading is over
    (see [left_card], which says what the card shows in every state). *)
Definition listed (st : State) : list FileInfo :=
  filter (λ file, folder_of file ∈ expandedFolders st) (files st).

(** What the left card shows, following the body of the component: the
    object [fileTree] is built first, and the render throws if that throws;
    then [if (loading)] returns the loading card; otherwise every folder of
    the tree gets a header and, when it is expanded
    ([expandedFolders.has(folder) && ...]), the buttons of its files. *)
Inductive LeftCard :=
| RenderThrows
| LoadingFiles
| Folders (headers : gset string) (buttons : gmap string (list FileInfo)).

Definition left_card (st : State) : LeftCard :=
  match fileTree st with
  | None => RenderThrows
  | Some tree =>
      if loading st then LoadingFiles
      else Folders (dom tree)
             (filter (λ entry, entry.1 ∈ expandedFolders st) tree)
  end.

End FileBrowser.

(** ** components/prompt-screen.tsx *)

Module PromptScreen.

(** Modelled from the spec: components/prompt-screen.tsx is not among the
    sources; only its use is, in app/page.tsx:
    [<PromptScreen onSubmit={handlePromptSubmit} isGenerating={isGenerating} />].
    The spec says of it: "submitting a prompt with an empty string is
    rejected client-side".  Submitting calls [onSubmit] with the prompt and
    the parameters of the form, unless the prompt is the empty string. *)
Definition submit {S} (onSubmit : string → Params → M S unit)
    (p : string) (params : Params) : M S unit :=
  if decide (p = "") then skip else onSubmit p params.

End PromptScreen.

(** ** Sample values *)

Definition title_field : FieldDefinition :=
  {| field_id := "1"; field_name := "title"; field_label := "Title";
     field_type := TString; field_required := true; field_defaultValue := None |}.

Definition year_field : FieldDefinition :=
  {| field_id := "2"; field_name := "year"; field_label := "Year";
     field_type := TNumber; field_required := false; field_defaultValue := None |}.

Definition all_operations : Operations :=
  {| op_create := true; op_read := true; op_update := true; op_delete := true |}.

Definition book_schema : SchemaDefinition :=
  {| entityName := "Book"; fields := [title_field]; operations := all_operations |}.

Definition refined_book_schema : SchemaDefinition :=
  {| entityName := "Book"; fields := [title_field; year_field];
     operations := all_operations |}.

(** Two fields with the same name, [title]. *)
Definition duplicated_schema : SchemaDefinition :=
  {| entityName := "Book"; fields := [title_field; title_field];
     operations := all_operations |}.

(** The wizard on its second step, editing [book_schema]. *)
Definition editing : Page.State :=
  {| Page.currentStep := Page.mockup; Page.schema := Some book_schema;
     Page.validationResult := None; Page.isGenerating := false |}.

Definition no_files : GeneratedFiles :=
  {| gf_sql := None; gf_schema := None; gf_orm := None; gf_api := None;
     gf_frontend := None; gf_templates := None; gf_requirements := None;
     gf_readme := None |}.

(** A well-typed [ValidationResult] without the optional [projectId]. *)
Definition result_without_project : ValidationResult :=
  {| success := true; errors := []; warnings := []; generatedFiles := no_files;
     projectId := None; codePreview := None |}.

Definition result_of_project (project : string) : ValidationResult :=
  {| success := true; errors := []; warnings := []; generatedFiles := no_files;
     projectId := Some project; codePreview := None |}.

Definition project_at (i : string) (t : Z) : ProjectsPage.Project :=
  {| ProjectsPage.id := i; ProjectsPage.entityName := "Book";
     ProjectsPage.created_at := t; ProjectsPage.status := "generated";
     ProjectsPage.schema := any_of "{}"; ProjectsPage.path := "generated/" +:+ i |}.

Definition main_py : FileBrowser.FileInfo :=
  {| FileBrowser.name := "main.py"; FileBrowser.path := "main.py";
     FileBrowser.type := "file"; FileBrowser.size := 120 |}.

Definition print_py : FileBrowser.FileContentResponse :=
  {| FileBrowser.content := "print(1)" |}.

(** The browser mounted on project [book_1], whose only file has been
    selected by the first load and its content received. *)
Definition browsing_book_1 : FileBrowser.State :=
  state_after
    (FileBrowser.loadFiles "book_1" (Responds 200 (Some [main_py])) ;;
     FileBrowser.loadFileContent_resume (Responds 200 (Some print_py)))
    FileBrowser.initial.

Definition app_py : FileBrowser.FileInfo :=
  {| FileBrowser.name := "app.py"; FileBrowser.path := "src/app.py";
     FileBrowser.type := "file"; FileBrowser.size := 300 |}.

(** A browser that has received the two files [src/app.py] and [main.py]. *)
Definition two_files : FileBrowser.State :=
  state_after (FileBrowser.loadFiles "book_1" (Responds 200 (Some [app_py; main_py])))
    FileBrowser.initial.

(** ** Shapes of a run *)

(** The run opens one alert dialog, with this message, and sends one
    request. *)
Definition alerts_once {S} (handler : M S unit) (st : S) (message : string) : Prop :=
  alerts (trace_of handler st) = [message]
  ∧ List.length (fetches (trace_of handler st)) = 1.

(** The run opens no alert dialog and sends one request. *)
Definition no_alert {S} (handler : M S unit) (st : S) : Prop :=
  alerts (trace_of handler st) = []
  ∧ List.length (fetches (trace_of handler st)) = 1.

(** Every request of the run goes to the backend on the local machine. *)
Definition to_backend (t : list Effect) : Prop :=
  Forall (λ r, String.prefix "http://localhost:8000/api/" (req_url r) = true)
    (fetches t).

(** * Properties *)

(** ** Running a handler *)

(** Unfolds the handlers and the monad down to the matches on the outcome
    of the request and on the state. *)
Ltac run :=
  unfold state_after, trace_of, result_of, alerts, fetches;
  cbv [Page.perform Page.begin Page.resume
       Page.handlePromptSubmit Page.handlePromptSubmit_begin Page.handlePromptSubmit_resume
       Page.handleRegenerate Page.handleRegenerate_begin Page.handleRegenerate_resume
       Page.handleConfirm Page.handleConfirm_begin Page.handleConfirm_resume
       Page.handleSchemaUpdate Page.handleStartOver
       Page.setCurrentStep Page.setSchema Page.setValidationResult Page.setIsGenerating
       ProjectsPage.loadProjects ProjectsPage.handleDownload ProjectsPage.handleDeploy
       ProjectsPage.handleDelete ProjectsPage.setProjects ProjectsPage.setLoading
       ValidationReport.handleDownload ValidationReport.handleDeploy
       FileBrowser.loadFiles FileBrowser.loadFileContent
       FileBrowser.loadFileContent_begin FileBrowser.loadFileContent_resume
       FileBrowser.toggleFolder FileBrowser.setFiles FileBrowser.setSelectedFile
       FileBrowser.setFileContent FileBrowser.setLoading FileBrowser.setExpandedFolders
       PromptScreen.submit save_blob
       fetch alert console_error console_log emit modify gets skip
       mbind mret M_bind M_ret];
  simpl.

(** Case analysis on where control goes after the request: to the rest of
    the [try] block or to the [catch] clause. *)
Ltac by_settle :=
  match goal with
  | |- context [settle ?failure ?net] => destruct (settle failure net); simpl
  end.

(** What [settle] answers to a request that failed. *)
Lemma settle_failed {A} (failure : string) (net : FetchOutcome A) :
  failed net = true →
  settle failure net = inl FetchRejected ∨ settle failure net = inl (Error failure).
Proof.
  destruct net as [|status payload]; simpl; [by left|].
  intros Hok. apply negb_true_iff in Hok. rewrite Hok. by right.
Qed.

(** The same for a request known to have failed: control is in the
    [catch] clause. *)
Ltac by_failure Hfail :=
  match goal with
  | |- context [settle ?failure ?net] =>
      destruct (settle_failed failure net Hfail) as [-> | ->]; simpl
  end.

(** ** The wizard (app/page.tsx) *)

(** C2. When the generate-schema request of [handlePromptSubmit] answers
    with a status outside 200-299, exactly one alert is shown, the wizard
    stays on the step it was on (the prompt step, where the prompt screen
    is rendered), and the stored schema is what it was. *)
Theorem handlePromptSubmit_not_ok (st : Page.State) (p : string) (params : Params)
    (status : Z) (payload : option SchemaDefinition) :
  ok status = false →
  alerts (trace_of (Page.handlePromptSubmit p params (Responds status payload)) st)
    = ["Failed to generate schema. Make sure the backend is running on port 8000."]
  ∧ Page.currentStep (state_after (Page.handlePromptSubmit p params (Responds status payload)) st)
    = Page.currentStep st
  ∧ Page.schema (state_after (Page.handlePromptSubmit p params (Responds status payload)) st)
    = Page.schema st.
Proof.
  intros Hok. run. rewrite Hok. simpl. done.
Qed.

Lemma handlePromptSubmit_not_ok_witness :
  ok 500 = false
  ∧ alerts (trace_of (Page.handlePromptSubmit "a library"
              {| params_entityName := "Book"; params_operations := ["create"; "read"] |}
              (Responds 500 None)) Page.initial)
    = ["Failed to generate schema. Make sure the backend is running on port 8000."]
  ∧ Page.currentStep (state_after (Page.handlePromptSubmit "a library"
              {| params_entityName := "Book"; params_operations := ["create"; "read"] |}
              (Responds 500 None)) Page.initial)
    = Page.currentStep Page.initial
  ∧ Page.schema (state_after (Page.handlePromptSubmit "a library"
              {| params_entityName := "Book"; params_operations := ["create"; "read"] |}
              (Responds 500 None)) Page.initial)
    = Page.schema Page.initial.
Proof.
  split; [reflexivity|].
  apply (handlePromptSubmit_not_ok Page.initial "a library"
    {| params_entityName := "Book"; params_operations := ["create"; "read"] |}
    500 None).
  reflexivity.
Defined.

(** The handler itself does not look at the prompt: called with the empty
    string it sends the request like with any other prompt. *)
Remark handlePromptSubmit_sends_any_prompt (st : Page.State) (p : string)
    (params : Params) (net : FetchOutcome SchemaDefinition) :
  fetches (trace_of (Page.handlePromptSubmit p params net) st)
    = [Page.generate_schema_request p params].
Proof.
  run. destruct (settle _ net); reflexivity.
Qed.

(** C4. Submitting the empty string on the prompt screen sends no
    generate-schema request (nothing at all is done: no effect, and the
    state of the wizard, its step included, is what it was). *)
Theorem submit_empty_prompt_rejected (st : Page.State) (params : Params)
    (net : FetchOutcome SchemaDefinition) :
  trace_of (PromptScreen.submit (λ p ps, Page.handlePromptSubmit p ps net) "" params) st = []
  ∧ fetches (trace_of (PromptScreen.submit (λ p ps, Page.handlePromptSubmit p ps net) "" params) st) = []
  ∧ state_after (PromptScreen.submit (λ p ps, Page.handlePromptSubmit p ps net) "" params) st = st.
Proof.
  by run.
Qed.

(** C5. After a refine-schema call that succeeds, the stored schema is the
    refined schema of the response; when the call rejects or answers with a
    status outside 200-299, the stored schema is what it was before. *)
Theorem handleRegenerate_schema (st : Page.State) (feedback : string) :
  (∀ current status refined,
      Page.schema st = Some current → ok status = true →
      Page.schema (state_after (Page.handleRegenerate feedback (Responds status (Some refined))) st)
        = Some refined)
  ∧ (∀ net : FetchOutcome SchemaDefinition,
      failed net = true →
      Page.schema (state_after (Page.handleRegenerate feedback net) st) = Page.schema st).
Proof.
  split.
  - intros current status refined Hcur Hok. run. rewrite Hcur. simpl.
    by rewrite Hok.
  - intros net Hfail. run. destruct (Page.schema st) as [current|] eqn:Hcur; simpl; [|done].
    destruct (settle_failed "Failed to refine schema" net Hfail) as [-> | ->]; by simpl.
Qed.

Lemma handleRegenerate_schema_witness :
  (Page.schema editing = Some book_schema ∧ ok 200 = true
   ∧ Page.schema (state_after (Page.handleRegenerate "add the year"
                     (Responds 200 (Some refined_book_schema))) editing)
       = Some refined_book_schema)
  ∧ (failed (Responds 503 (Some refined_book_schema)) = true
     ∧ Page.schema (state_after (Page.handleRegenerate "add the year"
                       (Responds 503 (Some refined_book_schema))) editing)
         = Page.schema editing).
Proof.
  destruct (handleRegenerate_schema editing "add the year") as [Hsuccess Hfailure].
  split.
  - split; [reflexivity|]. split; [reflexivity|].
    apply (Hsuccess book_schema 200%Z refined_book_schema); reflexivity.
  - split; [reflexivity|].
    apply (Hfailure (Responds 503 (Some refined_book_schema))). reflexivity.
Defined.

(** C6. Each of the three wizard actions has at most one request in
    flight.  Generating a schema always sends its request; refining and
    generating the application send theirs exactly when a schema is stored,
    and do nothing at all otherwise.  When a request is sent, what the
    action does up to its [await] is, in this order: set [isGenerating] to
    true, then issue the one fetch, so the flag is true while the request
    is pending.  However the request ends (success, rejection, status
    outside 200-299, unreadable body) and whatever the state is by then,
    what runs afterwards issues no further request and ends by setting
    [isGenerating] to false.  The whole call therefore reads: flag set to
    true, one fetch, reports without any fetch or change of the flag, flag
    set to false. *)
Theorem single_request_in_flight (a : Page.Action) (st : Page.State) :
  match a with
  | Page.GenerateSchema p params =>
      result_of (Page.begin a) st = true
      ∧ trace_of (Page.begin a) st
        = [SetIsGenerating true; Fetch (Page.generate_schema_request p params)]
  | Page.RefineSchema feedback =>
      match Page.schema st with
      | Some current =>
          result_of (Page.begin a) st = true
          ∧ trace_of (Page.begin a) st
            = [SetIsGenerating true; Fetch (Page.refine_schema_request current feedback)]
      | None => result_of (Page.begin a) st = false
      end
  | Page.GenerateApp =>
      match Page.schema st with
      | Some current =>
          result_of (Page.begin a) st = true
          ∧ trace_of (Page.begin a) st
            = [SetIsGenerating true; Fetch (Page.generate_app_request current)]
      | None => result_of (Page.begin a) st = false
      end
  end
  ∧ (result_of (Page.begin a) st = false →
     state_after (Page.begin a) st = st ∧ trace_of (Page.begin a) st = [])
  ∧ (result_of (Page.begin a) st = true →
     (∃ req : Request,
        Page.begin a st = (Page.setIsGenerating true ;; fetch req ;; mret true) st)
     ∧ Page.isGenerating (state_after (Page.begin a) st) = true
     ∧ List.length (fetches (trace_of (Page.begin a) st)) = 1)
  ∧ (∀ (net : FetchOutcome (Page.Reply a)) (st' : Page.State),
       Page.isGenerating (state_after (Page.resume a net) st') = false
       ∧ fetches (trace_of (Page.resume a net) st') = []
       ∧ ∃ reports : list Effect,
           trace_of (Page.resume a net) st' = (reports ++ [SetIsGenerating false])%list
           ∧ Forall (λ e, match e with
                          | Fetch _ | SetIsGenerating _ => False
                          | _ => True
                          end) reports)
  ∧ (∀ net : FetchOutcome (Page.Reply a),
       (List.length (fetches (trace_of (Page.perform a net) st)) ≤ 1)%nat
       ∧ (result_of (Page.begin a) st = true →
          Page.isGenerating (state_after (Page.perform a net) st) = false
          ∧ ∃ (req : Request) (reports : list Effect),
              trace_of (Page.perform a net) st
              = (SetIsGenerating true :: Fetch req :: reports
                   ++ [SetIsGenerating false])%list
              ∧ Forall (λ e, match e with
                             | Fetch _ | SetIsGenerating _ => False
                             | _ => True
                             end) reports)).
Proof.
  split; [|split; [|split; [|split]]].
  - destruct a as [p params|feedback|]; run; try done;
      destruct (Page.schema st); simpl; done.
  - destruct a as [p params|feedback|]; run; try done;
      destruct (Page.schema st); simpl; done.
  - destruct a as [p params|feedback|]; run;
      try (destruct (Page.schema st) eqn:Hcur; simpl; rewrite ?Hcur; [|done]);
      intros _; (split; [by eexists|done]).
  - intros net st'.
    destruct a as [p params|feedback|]; simpl in net; run; by_settle;
      (split; [done|]); (split; [done|]);
      first [ exists []; split; [reflexivity|by constructor]
            | eexists [_; _]; split; [reflexivity|by repeat constructor] ].
  - intros net.
    destruct a as [p params|feedback|]; simpl in net; run;
      try (destruct (Page.schema st); simpl; [|split; [lia|done]]);
      by_settle; (split; [lia|]); intros _; (split; [done|]);
      first [ eexists _, []; split; [reflexivity|by constructor]
            | eexists _, [_; _]; split; [reflexivity|by repeat constructor] ].
Qed.

Lemma single_request_in_flight_witness :
  (result_of (Page.begin (Page.RefineSchema "add the year")) Page.initial = false
   ∧ state_after (Page.begin (Page.RefineSchema "add the year")) Page.initial = Page.initial
   ∧ trace_of (Page.begin (Page.RefineSchema "add the year")) Page.initial = [])
  ∧ (result_of (Page.begin (Page.RefineSchema "add the year")) editing = true
     ∧ trace_of (Page.begin (Page.RefineSchema "add the year")) editing
       = [SetIsGenerating true; Fetch (Page.refine_schema_request book_schema "add the year")]
     ∧ Page.isGenerating (state_after (Page.begin (Page.RefineSchema "add the year")) editing) = true
     ∧ List.length (fetches (trace_of (Page.begin (Page.RefineSchema "add the year")) editing)) = 1
     ∧ Page.isGenerating
         (state_after (Page.perform (Page.RefineSchema "add the year") Rejects) editing) = false).
Proof.
  split.
  - destruct (single_request_in_flight (Page.RefineSchema "add the year") Page.initial)
      as (_ & Hidle & _).
    split; [reflexivity|]. apply Hidle. reflexivity.
  - destruct (single_request_in_flight (Page.RefineSchema "add the year") editing)
      as (Hshape & _ & Hbusy & _ & Hwhole).
    split; [reflexivity|].
    split; [exact (proj2 Hshape)|].
    destruct (Hbusy eq_refl) as (_ & Hflag & Hone).
    split; [exact Hflag|]. split; [exact Hone|].
    exact (proj1 (proj2 (Hwhole Rejects) eq_refl)).
Defined.

(** C7. [handleSchemaUpdate] stores the schema it is given, whatever it
    is: the new state is the old one with this schema, nothing is checked,
    no effect is performed.  A schema that has two fields of the same name
    is stored like any other. *)
Theorem handleSchemaUpdate_unconditional (st : Page.State) (updatedSchema : SchemaDefinition) :
  state_after (Page.handleSchemaUpdate updatedSchema) st
    = {| Page.currentStep := Page.currentStep st;
         Page.schema := Some updatedSchema;
         Page.validationResult := Page.validationResult st;
         Page.isGenerating := Page.isGenerating st |}
  ∧ trace_of (Page.handleSchemaUpdate updatedSchema) st = []
  ∧ ¬ NoDup (field_name <$> fields duplicated_schema)
  ∧ Page.schema (state_after (Page.handleSchemaUpdate duplicated_schema) st)
      = Some duplicated_schema.
Proof.
  repeat split.
  intros Hnodup. apply NoDup_cons in Hnodup as [Hnotin _].
  apply Hnotin. simpl. left.
Qed.

(** ** The validation result and its project id *)

(** C3, as stated, fails: the wizard accepts [result_without_project], a
    value of the type [ValidationResult] (it is stored and the wizard moves
    to the report step), and this result has no [projectId]; the download
    handler of the report then alerts "Project ID not found". *)
Lemma projectId_not_always_present :
  Page.validationResult
    (state_after (Page.handleConfirm (Responds 200 (Some result_without_project))) editing)
    = Some result_without_project
  ∧ Page.currentStep
      (state_after (Page.handleConfirm (Responds 200 (Some result_without_project))) editing)
    = Page.report
  ∧ ¬ (∃ project : string, projectId result_without_project = Some project)
  ∧ trace_of (ValidationReport.handleDownload result_without_project Rejects) tt
    = [Alert "Project ID not found"].
Proof.
  repeat split. intros [project Hsome]. discriminate Hsome.
Qed.

(** C3, amended.  The wizard stores whatever [ValidationResult] a
    successful generate-app call answers, with or without a [projectId],
    and moves to the report step.  When the [projectId] of the result is
    missing or empty, the download and deploy handlers of the report only
    alert "Project ID not found", send nothing, and no file browser is
    rendered.  When it is present, each handler sends exactly one request,
    for this project. *)
Theorem generate_app_result (result : ValidationResult) :
  (∀ (st : Page.State) (current : SchemaDefinition) (status : Z),
     Page.schema st = Some current → ok status = true →
     Page.validationResult
       (state_after (Page.handleConfirm (Responds status (Some result))) st) = Some result
     ∧ Page.currentStep
         (state_after (Page.handleConfirm (Responds status (Some result))) st) = Page.report)
  ∧ (truthy (projectId result) = None →
     ∀ (blob : FetchOutcome Blob) (deploy : FetchOutcome DeployResponse),
       trace_of (ValidationReport.handleDownload result blob) tt
         = [Alert "Project ID not found"]
       ∧ trace_of (ValidationReport.handleDeploy result deploy) tt
         = [Alert "Project ID not found"]
       ∧ ValidationReport.browsed_project result = None)
  ∧ (∀ project : string, truthy (projectId result) = Some project →
     ∀ (blob : FetchOutcome Blob) (deploy : FetchOutcome DeployResponse),
       fetches (trace_of (ValidationReport.handleDownload result blob) tt)
         = [download_request project]
       ∧ fetches (trace_of (ValidationReport.handleDeploy result deploy) tt)
         = [deploy_request project]).
Proof.
  split; [|split].
  - intros st current status Hcur Hok. run. rewrite Hcur. simpl.
    by rewrite Hok.
  - intros Hnone blob deploy. unfold ValidationReport.browsed_project. run.
    rewrite Hnone. by destruct (success result).
  - intros project Hsome blob deploy. run. rewrite Hsome. simpl.
    split; by by_settle.
Qed.

Lemma generate_app_result_witness :
  (Page.schema editing = Some book_schema ∧ ok 200 = true
   ∧ Page.validationResult
       (state_after (Page.handleConfirm (Responds 200 (Some result_without_project))) editing)
     = Some result_without_project)
  ∧ (truthy (projectId result_without_project) = None
     ∧ trace_of (ValidationReport.handleDeploy result_without_project Rejects) tt
       = [Alert "Project ID not found"])
  ∧ (truthy (projectId (result_of_project "book_1")) = Some "book_1"
     ∧ fetches (trace_of (ValidationReport.handleDownload (result_of_project "book_1") Rejects) tt)
       = [download_request "book_1"]).
Proof.
  split; [|split].
  - destruct (generate_app_result result_without_project) as (Hstored & _).
    split; [reflexivity|]. split; [reflexivity|].
    apply (Hstored editing book_schema 200%Z); reflexivity.
  - destruct (generate_app_result result_without_project) as (_ & Habsent & _).
    split; [reflexivity|].
    apply (Habsent eq_refl Rejects Rejects).
  - destruct (generate_app_result (result_of_project "book_1")) as (_ & _ & Hpresent).
    split; [reflexivity|].
    apply (Hpresent "book_1" eq_refl Rejects Rejects).
Defined.

(** ** Sorting an array with a comparator *)

Section array_sort.
Context {A : Type} (compareFn : A → A → Z) (R : relation A).

(** [R x y]: the comparator lets [x] stand before [y]. *)
Hypothesis compareFn_spec : ∀ x y, (compareFn x y ≤ 0)%Z ↔ R x y.
Hypothesis R_total : ∀ x y, R x y ∨ R y x.

Lemma sort_insert_Permutation (x : A) (l : list A) :
  sort_insert compareFn x l ≡ₚ x :: l.
Proof.
  induction l as [|y l IH]; simpl; [done|].
  case_eq (compareFn x y <=? 0)%Z; intros _; [done|].
  rewrite IH. apply Permutation_swap.
Qed.

Lemma array_sort_Permutation (l : list A) : array_sort compareFn l ≡ₚ l.
Proof.
  induction l as [|x l IH]; simpl; [done|].
  rewrite sort_insert_Permutation. by rewrite IH.
Qed.

Lemma HdRel_sort_insert (a x : A) (l : list A) :
  R a x → HdRel R a l → HdRel R a (sort_insert compareFn x l).
Proof.
  intros Hax Hal. destruct l as [|y l]; simpl; [by constructor|].
  case_eq (compareFn x y <=? 0)%Z; intros _; constructor; [done|].
  by inversion Hal.
Qed.

Lemma Sorted_sort_insert (x : A) (l : list A) :
  Sorted R l → Sorted R (sort_insert compareFn x l).
Proof.
  induction 1 as [|y l Hsorted IH Hhd]; simpl; [by repeat constructor|].
  case_eq (compareFn x y <=? 0)%Z; intros Hcmp.
  - apply Z.leb_le, compareFn_spec in Hcmp. by repeat constructor.
  - constructor; [done|]. apply HdRel_sort_insert; [|done].
    destruct (R_total x y) as [Hxy|Hyx]; [|done].
    apply compareFn_spec, Z.leb_le in Hxy. congruence.
Qed.

Lemma Sorted_array_sort (l : list A) : Sorted R (array_sort compareFn l).
Proof.
  induction l as [|x l IH]; simpl; [constructor|].
  by apply Sorted_sort_insert.
Qed.
End array_sort.

(** ** The projects page *)

(** C8. After the list of projects has been loaded with success, the
    stored array is in non-increasing order of [created_at] (every project
    is at least as recent as all those after it: newest first, projects of
    equal date allowed), and it is a permutation of the array the backend
    returned. *)
Theorem loadProjects_sorted (st : ProjectsPage.State) (status : Z)
    (data : ProjectsPage.ProjectsResponse) :
  ok status = true →
  StronglySorted
    (λ a b, (ProjectsPage.created_at b ≤ ProjectsPage.created_at a)%Z)
    (ProjectsPage.projects
       (state_after (ProjectsPage.loadProjects (Responds status (Some data))) st))
  ∧ ProjectsPage.projects
      (state_after (ProjectsPage.loadProjects (Responds status (Some data))) st)
    ≡ₚ ProjectsPage.projects_of data.
Proof.
  intros Hok. run. rewrite Hok. simpl. split.
  - apply Sorted_StronglySorted.
    + intros a b c Hab Hbc. lia.
    + apply Sorted_array_sort.
      * intros a b. unfold ProjectsPage.by_created_at_desc. lia.
      * intros a b. lia.
  - apply array_sort_Permutation.
Qed.

Lemma loadProjects_sorted_witness :
  ok 200 = true
  ∧ StronglySorted
      (λ a b, (ProjectsPage.created_at b ≤ ProjectsPage.created_at a)%Z)
      (ProjectsPage.projects
         (state_after (ProjectsPage.loadProjects (Responds 200 (Some
            {| ProjectsPage.projects_of :=
                 [project_at "a" 10; project_at "b" 30; project_at "c" 20;
                  project_at "d" 30] |}))) ProjectsPage.initial))
  ∧ ProjectsPage.projects
      (state_after (ProjectsPage.loadProjects (Responds 200 (Some
         {| ProjectsPage.projects_of :=
              [project_at "a" 10; project_at "b" 30; project_at "c" 20;
               project_at "d" 30] |}))) ProjectsPage.initial)
    ≡ₚ [project_at "a" 10; project_at "b" 30; project_at "c" 20; project_at "d" 30].
Proof.
  split; [reflexivity|].
  apply (loadProjects_sorted ProjectsPage.initial 200%Z
    {| ProjectsPage.projects_of :=
         [project_at "a" 10; project_at "b" 30; project_at "c" 20; project_at "d" 30] |}).
  reflexivity.
Defined.

(** The order on a concrete answer: newest first, the two projects of the
    same date in the order the backend gave them. *)
Example loadProjects_order :
  ProjectsPage.id <$>
    ProjectsPage.projects
      (state_after (ProjectsPage.loadProjects (Responds 200 (Some
         {| ProjectsPage.projects_of :=
              [project_at "a" 10; project_at "b" 30; project_at "c" 20;
               project_at "d" 30] |}))) ProjectsPage.initial)
  = ["b"; "d"; "c"; "a"].
Proof. reflexivity. Qed.

(** ** The file browser *)

Lemma expandedFolders_toggleFolder (folder : string) (st : FileBrowser.State) :
  FileBrowser.expandedFolders (state_after (FileBrowser.toggleFolder folder) st)
  = if decide (folder ∈ FileBrowser.expandedFolders st)
    then FileBrowser.expandedFolders st ∖ {[folder]}
    else FileBrowser.expandedFolders st ∪ {[folder]}.
Proof. reflexivity. Qed.

(** C9. Toggling a folder twice gives back the state it started from, the
    set of expanded folders included.  One toggle makes the folder expanded
    exactly when it was not, and changes the membership of no other
    folder. *)
Theorem toggleFolder_involution (folder : string) (st : FileBrowser.State) :
  state_after (FileBrowser.toggleFolder folder ;; FileBrowser.toggleFolder folder) st = st
  ∧ (folder ∈ FileBrowser.expandedFolders (state_after (FileBrowser.toggleFolder folder) st)
     ↔ folder ∉ FileBrowser.expandedFolders st)
  ∧ (∀ other : string, other ≠ folder →
       other ∈ FileBrowser.expandedFolders (state_after (FileBrowser.toggleFolder folder) st)
       ↔ other ∈ FileBrowser.expandedFolders st).
Proof.
  split; [|split].
  - destruct st as [fs sel code busy expanded]. run. f_equal.
    destruct (decide (folder ∈ expanded)) as [Hin|Hout].
    + rewrite decide_False by set_solver.
      apply set_eq. intros x. destruct (decide (x = folder)); set_solver.
    + rewrite decide_True by set_solver. set_solver.
  - rewrite expandedFolders_toggleFolder. case_decide; set_solver.
  - intros other Hother. rewrite expandedFolders_toggleFolder.
    case_decide; set_solver.
Qed.

Lemma toggleFolder_involution_witness :
  "src" ≠ "root"
  ∧ state_after (FileBrowser.toggleFolder "root" ;; FileBrowser.toggleFolder "root")
      FileBrowser.initial = FileBrowser.initial
  ∧ ("root" ∈ FileBrowser.expandedFolders
                (state_after (FileBrowser.toggleFolder "root") FileBrowser.initial)
     ↔ "root" ∉ FileBrowser.expandedFolders FileBrowser.initial)
  ∧ ("src" ∈ FileBrowser.expandedFolders
               (state_after (FileBrowser.toggleFolder "root") FileBrowser.initial)
     ↔ "src" ∈ FileBrowser.expandedFolders FileBrowser.initial).
Proof.
  destruct (toggleFolder_involution "root" FileBrowser.initial)
    as (Htwice & Hself & Hothers).
  assert (Hne : "src" ≠ "root") by discriminate.
  split; [exact Hne|]. split; [exact Htwice|]. split; [exact Hself|].
  exact (Hothers "src" Hne).
Defined.

(** C10, as stated, fails when a file was selected before the load.  The
    browser is on project [book_1] with [main.py] selected; its prop
    becomes [book_2], whose list of files is loaded with success and is
    empty: [main.py] is still selected and the viewer still shows its
    content instead of the placeholder. *)
Lemma empty_list_keeps_selection :
  FileBrowser.files
    (state_after (FileBrowser.loadFiles "book_2" (Responds 200 (Some []))) browsing_book_1) = []
  ∧ FileBrowser.selectedFile
      (state_after (FileBrowser.loadFiles "book_2" (Responds 200 (Some []))) browsing_book_1)
    = Some "main.py"
  ∧ FileBrowser.render
      (state_after (FileBrowser.loadFiles "book_2" (Responds 200 (Some []))) browsing_book_1)
    = FileBrowser.Browser {["root"]} (FileBrowser.FileView "main.py" "print(1)")
  ∧ FileBrowser.viewer
      (state_after (FileBrowser.loadFiles "book_2" (Responds 200 (Some []))) browsing_book_1)
    ≠ FileBrowser.Placeholder "Select a file to view its contents".
Proof.
  repeat split. discriminate.
Qed.

(** C10, amended.  After the list of files of a project has been loaded
    with success, the list is stored and the loading card is gone.  If the
    list is not empty, its first file is selected and the request for its
    content is sent.  If the list is empty, only the request for the list
    has been sent, and, when no file was selected before the load (as on
    the first load after the component is mounted), no file is selected and
    the viewer shows "Select a file to view its contents". *)
Theorem loadFiles_selects_first (project : string) (st : FileBrowser.State)
    (status : Z) (data : list FileBrowser.FileInfo) :
  ok status = true →
  FileBrowser.files
    (state_after (FileBrowser.loadFiles project (Responds status (Some data))) st) = data
  ∧ FileBrowser.loading
      (state_after (FileBrowser.loadFiles project (Responds status (Some data))) st) = false
  ∧ match data with
    | first :: _ =>
        FileBrowser.selectedFile
          (state_after (FileBrowser.loadFiles project (Responds status (Some data))) st)
          = Some (FileBrowser.path first)
        ∧ fetches (trace_of (FileBrowser.loadFiles project (Responds status (Some data))) st)
          = [FileBrowser.files_request project;
             FileBrowser.content_request project (FileBrowser.path first)]
    | [] =>
        fetches (trace_of (FileBrowser.loadFiles project (Responds status (Some data))) st)
          = [FileBrowser.files_request project]
        ∧ (FileBrowser.selectedFile st = None →
           FileBrowser.selectedFile
             (state_after (FileBrowser.loadFiles project (Responds status (Some data))) st)
             = None
           ∧ FileBrowser.render
               (state_after (FileBrowser.loadFiles project (Responds status (Some data))) st)
             = FileBrowser.Browser (FileBrowser.expandedFolders st)
                 (FileBrowser.Placeholder "Select a file to view its contents"))
    end.
Proof.
  intros Hok. run. rewrite Hok. simpl.
  destruct data as [|first rest]; simpl; [|done].
  do 3 (split; [done|]). intros Hnone. split; [done|].
  unfold FileBrowser.render, FileBrowser.viewer. simpl. by rewrite Hnone.
Qed.

Lemma loadFiles_selects_first_witness :
  ok 200 = true
  ∧ (FileBrowser.selectedFile
       (state_after (FileBrowser.loadFiles "book_1" (Responds 200 (Some [main_py])))
          FileBrowser.initial) = Some "main.py"
     ∧ fetches (trace_of (FileBrowser.loadFiles "book_1" (Responds 200 (Some [main_py])))
          FileBrowser.initial)
       = [FileBrowser.files_request "book_1";
          FileBrowser.content_request "book_1" "main.py"])
  ∧ (FileBrowser.selectedFile FileBrowser.initial = None
     ∧ FileBrowser.selectedFile
         (state_after (FileBrowser.loadFiles "book_2" (Responds 200 (Some [])))
            FileBrowser.initial) = None
     ∧ FileBrowser.render
         (state_after (FileBrowser.loadFiles "book_2" (Responds 200 (Some [])))
            FileBrowser.initial)
       = FileBrowser.Browser {["root"]}
           (FileBrowser.Placeholder "Select a file to view its contents")).
Proof.
  split; [reflexivity|]. split.
  - destruct (loadFiles_selects_first "book_1" FileBrowser.initial 200%Z [main_py] eq_refl)
      as (_ & _ & Hfirst).
    exact Hfirst.
  - destruct (loadFiles_selects_first "book_2" FileBrowser.initial 200%Z [] eq_refl)
      as (_ & _ & _ & Hempty).
    split; [reflexivity|]. exact (Hempty eq_refl).
Defined.

(** ** How a failed request is reported *)

(** C1, as stated, fails for the two requests of the file browser: when
    the request for the list of files, or the request for the content of a
    file, answers 500, no alert dialog is opened. *)
Lemma file_browser_failures_raise_no_alert :
  failed (Responds 500 (@None (list FileBrowser.FileInfo))) = true
  ∧ alerts (trace_of (FileBrowser.loadFiles "book_1" (Responds 500 None)) FileBrowser.initial)
    = []
  ∧ failed (Responds 500 (@None FileBrowser.FileContentResponse)) = true
  ∧ alerts (trace_of (FileBrowser.loadFileContent "book_1" "main.py" (Responds 500 None))
              FileBrowser.initial)
    = [].
Proof.
  repeat split.
Qed.

(** C1, amended.  A request of the wizard, of the projects page or of the
    validation report that rejects or answers with a status outside 200-299
    is reported by one alert dialog.  A failed request of the file browser
    for the content of a file opens no dialog: it is reported in the
    viewer, whose text becomes "Error loading file content".  In every
    case, the request of the file browser for the list of files included,
    the request has been sent once: nothing is retried. *)
Theorem failed_fetch_reporting :
  (∀ (st : Page.State) (p : string) (params : Params) (net : FetchOutcome SchemaDefinition),
     failed net = true →
     alerts_once (Page.handlePromptSubmit p params net) st
       "Failed to generate schema. Make sure the backend is running on port 8000.")
  ∧ (∀ (st : Page.State) (current : SchemaDefinition) (feedback : string)
       (net : FetchOutcome SchemaDefinition),
     failed net = true → Page.schema st = Some current →
     alerts_once (Page.handleRegenerate feedback net) st
       "Failed to refine schema. Make sure the backend is running.")
  ∧ (∀ (st : Page.State) (current : SchemaDefinition) (net : FetchOutcome ValidationResult),
     failed net = true → Page.schema st = Some current →
     alerts_once (Page.handleConfirm net) st
       "Failed to generate application. Make sure the backend is running.")
  ∧ (∀ (st : ProjectsPage.State) (net : FetchOutcome ProjectsPage.ProjectsResponse),
     failed net = true →
     alerts_once (ProjectsPage.loadProjects net) st
       "Failed to load projects. Make sure the backend is running.")
  ∧ (∀ (st : ProjectsPage.State) (project : string) (net : FetchOutcome Blob),
     failed net = true →
     alerts_once (ProjectsPage.handleDownload project net) st "Failed to download project")
  ∧ (∀ (st : ProjectsPage.State) (project : string) (net : FetchOutcome DeployResponse),
     failed net = true →
     alerts_once (ProjectsPage.handleDeploy project net) st
       "Failed to get deployment instructions")
  ∧ (∀ (result : ValidationResult) (project : string) (net : FetchOutcome Blob),
     failed net = true → truthy (projectId result) = Some project →
     alerts_once (ValidationReport.handleDownload result net) tt
       "Failed to download project. Make sure the backend is running.")
  ∧ (∀ (result : ValidationResult) (project : string) (net : FetchOutcome DeployResponse),
     failed net = true → truthy (projectId result) = Some project →
     alerts_once (ValidationReport.handleDeploy result net) tt
       "Failed to get deployment instructions. Make sure the backend is running.")
  ∧ (∀ (project : string) (st : FileBrowser.State) (filePath : string)
       (net : FetchOutcome FileBrowser.FileContentResponse),
     failed net = true →
     no_alert (FileBrowser.loadFileContent project filePath net) st
     ∧ FileBrowser.fileContent
         (state_after (FileBrowser.loadFileContent project filePath net) st)
       = "Error loading file content")
  ∧ (∀ (project : string) (st : FileBrowser.State)
       (net : FetchOutcome (list FileBrowser.FileInfo)),
     failed net = true →
     List.length (fetches (trace_of (FileBrowser.loadFiles project net) st)) = 1).
Proof.
  unfold alerts_once, no_alert.
  repeat apply conj; intros.
  all: run.
  all: repeat match goal with
       | Heq : _ = Some _ |- _ => rewrite Heq; clear Heq; simpl
       end.
  all: match goal with
       | Hfail : failed _ = true |- _ => by_failure Hfail
       end.
  all: done.
Qed.

Lemma failed_fetch_reporting_witness :
  (failed (@Rejects SchemaDefinition) = true
   ∧ alerts_once
       (Page.handlePromptSubmit "a library"
          {| params_entityName := "Book"; params_operations := ["create"; "read"] |} Rejects)
       Page.initial
       "Failed to generate schema. Make sure the backend is running on port 8000.")
  ∧ (failed (Responds 502 (@None ValidationResult)) = true
     ∧ Page.schema editing = Some book_schema
     ∧ alerts_once (Page.handleConfirm (Responds 502 None)) editing
         "Failed to generate application. Make sure the backend is running.")
  ∧ (failed (Responds 404 (@None Blob)) = true
     ∧ truthy (projectId (result_of_project "book_1")) = Some "book_1"
     ∧ alerts_once
         (ValidationReport.handleDownload (result_of_project "book_1") (Responds 404 None)) tt
         "Failed to download project. Make sure the backend is running.")
  ∧ (failed (Responds 404 (@None FileBrowser.FileContentResponse)) = true
     ∧ no_alert (FileBrowser.loadFileContent "book_1" "main.py" (Responds 404 None))
         browsing_book_1
     ∧ FileBrowser.fileContent
         (state_after (FileBrowser.loadFileContent "book_1" "main.py" (Responds 404 None))
            browsing_book_1)
       = "Error loading file content").
Proof.
  destruct failed_fetch_reporting
    as (Hprompt & _ & Hconfirm & _ & _ & _ & Hdownload & _ & Hcontent & _).
  split; [|split; [|split]].
  - split; [reflexivity|]. apply Hprompt. reflexivity.
  - split; [reflexivity|]. split; [reflexivity|].
    apply (Hconfirm editing book_schema); reflexivity.
  - split; [reflexivity|]. split; [reflexivity|].
    apply (Hdownload (result_of_project "book_1") "book_1"); reflexivity.
  - split; [reflexivity|]. apply Hcontent. reflexivity.
Defined.

(** * Further properties of the components *)

(** ** Sequences of handlers *)

Lemma state_after_seq {S} (m k : M S unit) (st : S) :
  state_after (m ;; k) st = state_after k (state_after m st).
Proof.
  unfold state_after, mbind, M_bind.
  destruct (m st) as [[[] st1] t1]. simpl. by destruct (k st1) as [[[] st2] t2].
Qed.

Lemma trace_of_seq {S} (m k : M S unit) (st : S) :
  trace_of (m ;; k) st = (trace_of m st ++ trace_of k (state_after m st))%list.
Proof.
  unfold trace_of, state_after, mbind, M_bind.
  destruct (m st) as [[[] st1] t1]. simpl. by destruct (k st1) as [[[] st2] t2].
Qed.

(** ** The wizard: what is on the page *)

(** The two facts the page relies on to have something to show: on the
    editing step there is a schema, on the report step there is a result. *)
Lemma react_keeps_content (e : Page.Event) (st : Page.State) :
  (Page.currentStep st = Page.mockup → is_Some (Page.schema st))
  ∧ (Page.currentStep st = Page.report → is_Some (Page.validationResult st)) →
  (Page.currentStep (state_after (Page.react e) st) = Page.mockup →
     is_Some (Page.schema (state_after (Page.react e) st)))
  ∧ (Page.currentStep (state_after (Page.react e) st) = Page.report →
     is_Some (Page.validationResult (state_after (Page.react e) st))).
Proof.
  intros [Hmockup Hreport].
  destruct e as [a|a net|updatedSchema|]; cbv [Page.react].
  - destruct a as [p params|feedback|]; run;
      try (destruct (Page.schema st) eqn:Hcur; simpl; rewrite ?Hcur);
      split; intros; simpl in *; auto.
  - destruct a as [p params|feedback|]; simpl in net; run; by_settle;
      split; intros; simpl in *; try done; auto.
  - run. split; intros; simpl in *; [done|auto].
  - run. split; intros; simpl in *; done.
Qed.

(** X1. Whatever the children call, in whatever order, and however and
    whenever the pending requests end, the main area of the wizard is never
    empty: on the editing step a schema is there to edit, on the report
    step a result is there to show. *)
Theorem wizard_never_blank (es : list Page.Event) :
  Page.main (state_after (Page.react_all es) Page.initial) ≠ Page.Blank.
Proof.
  assert (Hinv : ∀ st,
    (Page.currentStep st = Page.mockup → is_Some (Page.schema st))
    ∧ (Page.currentStep st = Page.report → is_Some (Page.validationResult st)) →
    Page.main (state_after (Page.react_all es) st) ≠ Page.Blank).
  { induction es as [|e es IH]; intros st [Hmockup Hreport].
    - change (state_after (Page.react_all []) st) with st. unfold Page.main.
      destruct (Page.currentStep st); [done| |].
      + by destruct (Hmockup eq_refl) as [current ->].
      + by destruct (Hreport eq_refl) as [result ->].
    - simpl. rewrite state_after_seq. apply IH. by apply react_keeps_content. }
  apply Hinv. by split.
Qed.

(** ** The wizard: requests that do not succeed *)

Lemma settle_unsuccessful {A} (failure : string) (net : FetchOutcome A) :
  succeeded net = false → ∃ error : Exn, settle failure net = inl error.
Proof.
  destruct net as [|status [data|]]; simpl; intros Hnot.
  - by eexists.
  - rewrite Hnot. by eexists.
  - destruct (ok status); by eexists.
Qed.

(** X2. A wizard action whose request does not succeed (the promise
    rejects, the status is outside 200-299, or the body of a 2xx answer
    cannot be read) leaves the whole state of the wizard as it was before
    the call, when no other request was pending then; if a request was sent
    the user gets one alert, and the request was sent once. *)
Theorem unsuccessful_action_changes_nothing (a : Page.Action) (st : Page.State)
    (net : FetchOutcome (Page.Reply a)) :
  succeeded net = false →
  Page.isGenerating st = false →
  state_after (Page.perform a net) st = st
  ∧ List.length (alerts (trace_of (Page.perform a net) st))
    = (if result_of (Page.begin a) st then 1 else 0)
  ∧ List.length (fetches (trace_of (Page.perform a net) st))
    = (if result_of (Page.begin a) st then 1 else 0).
Proof.
  intros Hnot Hidle.
  destruct st as [step current result generating]. simpl in Hidle. subst generating.
  destruct a as [p params|feedback|]; simpl in net.
  all: run; try (destruct current as [current|]; simpl; [|done]).
  all: match goal with
       | |- context [settle ?failure ?n] =>
           destruct (settle_unsuccessful failure n Hnot) as [error ->]
       end; simpl; done.
Qed.

Lemma unsuccessful_action_changes_nothing_witness :
  succeeded (Responds 200 (@None ValidationResult)) = false
  ∧ Page.isGenerating editing = false
  ∧ state_after (Page.perform Page.GenerateApp (Responds 200 None)) editing = editing
  ∧ List.length (alerts (trace_of (Page.perform Page.GenerateApp (Responds 200 None)) editing))
    = (if result_of (Page.begin Page.GenerateApp) editing then 1 else 0)
  ∧ List.length (fetches (trace_of (Page.perform Page.GenerateApp (Responds 200 None)) editing))
    = (if result_of (Page.begin Page.GenerateApp) editing then 1 else 0).
Proof.
  split; [reflexivity|]. split; [reflexivity|].
  apply (unsuccessful_action_changes_nothing Page.GenerateApp editing (Responds 200 None));
    reflexivity.
Defined.

(** The same case analysis as [by_failure], for a request that did not
    succeed. *)
Ltac by_unsuccessful Hnot :=
  match goal with
  | |- context [settle ?failure ?net] =>
      let error := fresh "error" in
      destruct (settle_unsuccessful failure net Hnot) as [error ->]; simpl
  end.

(** X3. A complete pass through the wizard (a prompt whose schema is
    generated, then the application generated from it), followed by Start
    Over, brings the wizard back to exactly the state it was mounted in:
    nothing of the pass is kept. *)
Theorem full_pass_then_start_over (p : string) (params : Params)
    (generated : SchemaDefinition) (result : ValidationResult) (s1 s2 : Z) :
  ok s1 = true → ok s2 = true →
  Page.main (state_after (Page.handlePromptSubmit p params (Responds s1 (Some generated)))
               Page.initial)
    = Page.ShowMockupEditor generated false
  ∧ Page.main (state_after
                 (Page.handlePromptSubmit p params (Responds s1 (Some generated)) ;;
                  Page.handleConfirm (Responds s2 (Some result)))
                 Page.initial)
    = Page.ShowValidationReport result
  ∧ state_after
      (Page.handlePromptSubmit p params (Responds s1 (Some generated)) ;;
       Page.handleConfirm (Responds s2 (Some result)) ;;
       Page.handleStartOver)
      Page.initial
    = Page.initial.
Proof.
  intros H1 H2. unfold Page.main. run. rewrite H1. simpl. rewrite H2. done.
Qed.

Lemma full_pass_then_start_over_witness :
  ok 200 = true ∧ ok 201 = true
  ∧ state_after
      (Page.handlePromptSubmit "a library"
         {| params_entityName := "Book"; params_operations := ["create"] |}
         (Responds 200 (Some book_schema)) ;;
       Page.handleConfirm (Responds 201 (Some (result_of_project "book_1"))) ;;
       Page.handleStartOver)
      Page.initial
    = Page.initial.
Proof.
  split; [reflexivity|]. split; [reflexivity|].
  apply (full_pass_then_start_over "a library"
           {| params_entityName := "Book"; params_operations := ["create"] |}
           book_schema (result_of_project "book_1") 200%Z 201%Z); reflexivity.
Defined.

(** X4. What the user last saved in the editor is what is sent: after
    [handleSchemaUpdate], generating the application sends one
    generate-app request carrying exactly the updated schema, and refining
    sends one refine-schema request carrying it with the feedback; this
    holds whatever was stored before and however the request ends. *)
Theorem edited_schema_is_sent (st : Page.State) (updatedSchema : SchemaDefinition)
    (feedback : string) (app : FetchOutcome ValidationResult)
    (refined : FetchOutcome SchemaDefinition) :
  fetches (trace_of (Page.handleSchemaUpdate updatedSchema ;; Page.handleConfirm app) st)
    = [{| req_method := POST;
          req_url := "http://localhost:8000/api/generate-app";
          req_body := GenerateAppBody updatedSchema "gpt-4o-mini" |}]
  ∧ fetches (trace_of (Page.handleSchemaUpdate updatedSchema ;;
                       Page.handleRegenerate feedback refined) st)
    = [{| req_method := POST;
          req_url := "http://localhost:8000/api/refine-schema";
          req_body := RefineSchemaBody updatedSchema feedback "gpt-4o-mini" |}].
Proof.
  split; run; by by_settle.
Qed.

(** X5. Refining never navigates and generating never edits: whatever the
    outcome of the request, [handleRegenerate] leaves the step and the
    validation result as they were, and [handleConfirm] leaves the schema
    as it was. *)
Theorem refine_and_confirm_frames (st : Page.State) (feedback : string)
    (refined : FetchOutcome SchemaDefinition) (app : FetchOutcome ValidationResult) :
  Page.currentStep (state_after (Page.handleRegenerate feedback refined) st)
    = Page.currentStep st
  ∧ Page.validationResult (state_after (Page.handleRegenerate feedback refined) st)
    = Page.validationResult st
  ∧ Page.schema (state_after (Page.handleConfirm app) st) = Page.schema st.
Proof.
  repeat apply conj; run;
    (destruct (Page.schema st) as [current|] eqn:Hcur; simpl; [|done]);
    by_settle; by rewrite ?Hcur.
Qed.

(** ** Sorting: ties and arrays already in order *)

Section array_sort_order.
Context {A : Type} (compareFn : A → A → Z) (R : relation A).

Hypothesis compareFn_spec : ∀ x y, (compareFn x y ≤ 0)%Z ↔ R x y.

Lemma sort_insert_HdRel (x : A) (l : list A) :
  HdRel R x l → sort_insert compareFn x l = x :: l.
Proof.
  destruct 1 as [|y l Hxy]; simpl; [done|].
  apply compareFn_spec, Z.leb_le in Hxy. by rewrite Hxy.
Qed.

Lemma array_sort_Sorted (l : list A) : Sorted R l → array_sort compareFn l = l.
Proof.
  induction 1 as [|x l Hsorted IH Hhd]; simpl; [done|].
  fold (array_sort compareFn l). rewrite IH. by apply sort_insert_HdRel.
Qed.

(** Elements that the comparator never puts in the wrong order, such as
    elements that compare equal, keep their relative order. *)
Lemma filter_sort_insert (P : A → Prop) `{!∀ x, Decision (P x)} (x : A) (l : list A) :
  (∀ y z, P y → P z → (compareFn y z ≤ 0)%Z) →
  filter P (sort_insert compareFn x l) = filter P (x :: l).
Proof.
  intros Hties. induction l as [|y l IH]; simpl; [done|].
  case_eq (compareFn x y <=? 0)%Z; intros Hcmp; [done|].
  apply Z.leb_gt in Hcmp.
  rewrite (filter_cons P y), IH, !(filter_cons P x), (filter_cons P y).
  destruct (decide (P x)) as [Hx|Hx]; [|done].
  destruct (decide (P y)) as [Hy|Hy]; [|done].
  specialize (Hties x y Hx Hy). lia.
Qed.

Lemma filter_array_sort (P : A → Prop) `{!∀ x, Decision (P x)} (l : list A) :
  (∀ y z, P y → P z → (compareFn y z ≤ 0)%Z) →
  filter P (array_sort compareFn l) = filter P l.
Proof.
  intros Hties. induction l as [|x l IH]; simpl; [done|].
  fold (array_sort compareFn l). rewrite filter_sort_insert by done.
  by rewrite !filter_cons, IH.
Qed.
End array_sort_order.

(** ** The projects page: order, failed loads, row actions *)

(** X6. Projects created at the same instant are shown in the order the
    backend listed them: for every date, the projects of that date appear
    in the stored array in the same relative order as in the answer. *)
Theorem loadProjects_keeps_order_of_ties (st : ProjectsPage.State) (status : Z)
    (data : ProjectsPage.ProjectsResponse) (date : Z) :
  ok status = true →
  filter (λ project, ProjectsPage.created_at project = date)
    (ProjectsPage.projects
       (state_after (ProjectsPage.loadProjects (Responds status (Some data))) st))
  = filter (λ project, ProjectsPage.created_at project = date)
      (ProjectsPage.projects_of data).
Proof.
  intros Hok. run. rewrite Hok. simpl.
  apply filter_array_sort. intros y z Hy Hz.
  unfold ProjectsPage.by_created_at_desc. lia.
Qed.

Lemma loadProjects_keeps_order_of_ties_witness :
  ok 200 = true
  ∧ filter (λ project, ProjectsPage.created_at project = 30%Z)
      (ProjectsPage.projects
         (state_after (ProjectsPage.loadProjects (Responds 200 (Some
            {| ProjectsPage.projects_of :=
                 [project_at "a" 10; project_at "b" 30; project_at "c" 20;
                  project_at "d" 30] |}))) ProjectsPage.initial))
    = filter (λ project, ProjectsPage.created_at project = 30%Z)
        [project_at "a" 10; project_at "b" 30; project_at "c" 20; project_at "d" 30].
Proof.
  split; [reflexivity|].
  apply (loadProjects_keeps_order_of_ties ProjectsPage.initial 200%Z
    {| ProjectsPage.projects_of :=
         [project_at "a" 10; project_at "b" 30; project_at "c" 20; project_at "d" 30] |}
    30%Z).
  reflexivity.
Defined.

(** X7. When the backend already lists the projects newest first, the
    page stores the list exactly as received: sorting moves nothing. *)
Theorem loadProjects_sorted_answer_unchanged (st : ProjectsPage.State) (status : Z)
    (data : ProjectsPage.ProjectsResponse) :
  ok status = true →
  Sorted (λ a b, (ProjectsPage.created_at b ≤ ProjectsPage.created_at a)%Z)
    (ProjectsPage.projects_of data) →
  ProjectsPage.projects
    (state_after (ProjectsPage.loadProjects (Responds status (Some data))) st)
  = ProjectsPage.projects_of data.
Proof.
  intros Hok Hsorted. run. rewrite Hok. simpl.
  apply (array_sort_Sorted _ _) with (2 := Hsorted).
  intros a b. unfold ProjectsPage.by_created_at_desc. lia.
Qed.

Lemma loadProjects_sorted_answer_unchanged_witness :
  ok 200 = true
  ∧ Sorted (λ a b, (ProjectsPage.created_at b ≤ ProjectsPage.created_at a)%Z)
      [project_at "b" 30; project_at "d" 30; project_at "a" 10]
  ∧ ProjectsPage.projects
      (state_after (ProjectsPage.loadProjects (Responds 200 (Some
         {| ProjectsPage.projects_of :=
              [project_at "b" 30; project_at "d" 30; project_at "a" 10] |})))
         ProjectsPage.initial)
    = [project_at "b" 30; project_at "d" 30; project_at "a" 10].
Proof.
  assert (Hsorted :
    Sorted (λ a b, (ProjectsPage.created_at b ≤ ProjectsPage.created_at a)%Z)
      [project_at "b" 30; project_at "d" 30; project_at "a" 10]).
  { repeat constructor; simpl; lia. }
  split; [reflexivity|]. split; [exact Hsorted|].
  exact (loadProjects_sorted_answer_unchanged ProjectsPage.initial 200%Z
    {| ProjectsPage.projects_of :=
         [project_at "b" 30; project_at "d" 30; project_at "a" 10] |}
    eq_refl Hsorted).
Defined.

(** X8. A load of the projects that does not succeed changes nothing but
    the loading flag: the list and the selection are kept, the loading text
    goes away and one alert is shown.  On the first load after the page is
    mounted the page then shows the "No Projects Yet" card, the same card
    as for a backend that answers with an empty list. *)
Theorem loadProjects_unsuccessful (st : ProjectsPage.State)
    (net : FetchOutcome ProjectsPage.ProjectsResponse) (status : Z) :
  succeeded net = false →
  ok status = true →
  state_after (ProjectsPage.loadProjects net) st
    = state_after (ProjectsPage.setLoading false) st
  ∧ alerts (trace_of (ProjectsPage.loadProjects net) st)
    = ["Failed to load projects. Make sure the backend is running."]
  ∧ ProjectsPage.render (state_after (ProjectsPage.loadProjects net) ProjectsPage.initial)
    = ProjectsPage.NoProjectsYet
  ∧ ProjectsPage.render
      (state_after
         (ProjectsPage.loadProjects
            (Responds status (Some {| ProjectsPage.projects_of := [] |})))
         ProjectsPage.initial)
    = ProjectsPage.NoProjectsYet.
Proof.
  intros Hnot Hok. unfold ProjectsPage.render. run. rewrite Hok.
  by_unsuccessful Hnot. done.
Qed.

Lemma loadProjects_unsuccessful_witness :
  succeeded (@Rejects ProjectsPage.ProjectsResponse) = false
  ∧ ok 200 = true
  ∧ ProjectsPage.render (state_after (ProjectsPage.loadProjects Rejects) ProjectsPage.initial)
    = ProjectsPage.NoProjectsYet.
Proof.
  split; [reflexivity|]. split; [reflexivity|].
  destruct (loadProjects_unsuccessful ProjectsPage.initial Rejects 200%Z eq_refl eq_refl)
    as (_ & _ & Hcard & _).
  exact Hcard.
Defined.

(** X9. The buttons of a project card never change the page: whatever the
    outcome, neither Download nor Deploy nor Delete touches the list, the
    loading flag or the selection.  Delete never sends a request, whether
    the user confirms or not. *)
Theorem card_actions_keep_page (st : ProjectsPage.State) (project : string)
    (blob : FetchOutcome Blob) (deploy : FetchOutcome DeployResponse) (confirmed : bool) :
  state_after (ProjectsPage.handleDownload project blob) st = st
  ∧ state_after (ProjectsPage.handleDeploy project deploy) st = st
  ∧ state_after (ProjectsPage.handleDelete project confirmed) st = st
  ∧ fetches (trace_of (ProjectsPage.handleDelete project confirmed) st) = [].
Proof.
  split; [|split; [|split]].
  - run. by by_settle.
  - run. by by_settle.
  - run. by destruct confirmed.
  - run. by destruct confirmed.
Qed.

(** X10. The two Download buttons (on a project card and on the report)
    do the same for the same project: they send the same request; when it
    succeeds the blob is saved as the project id followed by ".zip" and no
    alert is shown; when it does not, nothing is saved. *)
Theorem downloads_agree (st : ProjectsPage.State) (result : ValidationResult)
    (project : string) (net : FetchOutcome Blob) :
  truthy (projectId result) = Some project →
  fetches (trace_of (ValidationReport.handleDownload result net) tt)
    = fetches (trace_of (ProjectsPage.handleDownload project net) st)
  ∧ saved (trace_of (ValidationReport.handleDownload result net) tt)
    = (if succeeded net then [project +:+ ".zip"] else [])
  ∧ saved (trace_of (ProjectsPage.handleDownload project net) st)
    = (if succeeded net then [project +:+ ".zip"] else [])
  ∧ (succeeded net = true →
     alerts (trace_of (ValidationReport.handleDownload result net) tt) = []
     ∧ alerts (trace_of (ProjectsPage.handleDownload project net) st) = []).
Proof.
  intros Hproject. unfold saved. run. rewrite Hproject. simpl.
  destruct net as [|status [data|]]; simpl; [done| |]; by destruct (ok status).
Qed.

Lemma downloads_agree_witness :
  truthy (projectId (result_of_project "book_1")) = Some "book_1"
  ∧ saved (trace_of (ValidationReport.handleDownload (result_of_project "book_1")
                       (Responds 200 (Some (blob_of "PK")))) tt)
    = ["book_1.zip"].
Proof.
  split; [reflexivity|].
  destruct (downloads_agree ProjectsPage.initial (result_of_project "book_1") "book_1"
              (Responds 200 (Some (blob_of "PK"))) eq_refl) as (_ & Hsaved & _).
  exact Hsaved.
Defined.

(** X11. Deploy always answers the click with exactly one alert dialog,
    on the project card and on the report alike.  When the request
    succeeds the alert is the text of the deployment instructions received
    (the three of them, Railway, Render and Docker, in the layout of the
    component); when it does not, the alert is the failure message of the
    component; on a report without project id it is "Project ID not
    found". *)
Theorem deploy_alerts_once (st : ProjectsPage.State) (project : string)
    (result : ValidationResult) (net : FetchOutcome DeployResponse) :
  alerts (trace_of (ProjectsPage.handleDeploy project net) st)
    = [match net with
       | Responds status (Some data) =>
           if ok status then
             "Deployment Instructions:" +:+ nl +:+ nl +:+
             "Railway:" +:+ nl +:+ railway (instructions data) +:+ nl +:+ nl +:+
             "Render:" +:+ nl +:+ render (instructions data) +:+ nl +:+ nl +:+
             "Docker:" +:+ nl +:+ docker (instructions data)
           else "Failed to get deployment instructions"
       | _ => "Failed to get deployment instructions"
       end]
  ∧ alerts (trace_of (ValidationReport.handleDeploy result net) tt)
    = [match truthy (projectId result) with
       | None => "Project ID not found"
       | Some _ =>
           match net with
           | Responds status (Some data) =>
               if ok status then
                 "Deployment Instructions:" +:+ nl +:+ nl +:+
                 "Railway: " +:+ railway (instructions data) +:+ nl +:+
                 "Render: " +:+ render (instructions data) +:+ nl +:+
                 "Docker: " +:+ docker (instructions data)
               else
                 "Failed to get deployment instructions. Make sure the backend is running."
           | _ =>
               "Failed to get deployment instructions. Make sure the backend is running."
           end
       end]
  ∧ List.length (alerts (trace_of (ProjectsPage.handleDeploy project net) st)) = 1
  ∧ List.length (alerts (trace_of (ValidationReport.handleDeploy result net) tt)) = 1.
Proof.
  assert (Hcard :
    ∀ text, alerts (trace_of (ProjectsPage.handleDeploy project net) st) = [text] →
    List.length (alerts (trace_of (ProjectsPage.handleDeploy project net) st)) = 1)
    by (by intros text ->).
  assert (Hreport :
    ∀ text, alerts (trace_of (ValidationReport.handleDeploy result net) tt) = [text] →
    List.length (alerts (trace_of (ValidationReport.handleDeploy result net) tt)) = 1)
    by (by intros text ->).
  assert (Hfirst : alerts (trace_of (ProjectsPage.handleDeploy project net) st)
    = [match net with
       | Responds status (Some data) =>
           if ok status then
             "Deployment Instructions:" +:+ nl +:+ nl +:+
             "Railway:" +:+ nl +:+ railway (instructions data) +:+ nl +:+ nl +:+
             "Render:" +:+ nl +:+ render (instructions data) +:+ nl +:+ nl +:+
             "Docker:" +:+ nl +:+ docker (instructions data)
           else "Failed to get deployment instructions"
       | _ => "Failed to get deployment instructions"
       end]).
  { run. destruct net as [|status [data|]]; simpl; [done| |]; by destruct (ok status). }
  assert (Hsecond : alerts (trace_of (ValidationReport.handleDeploy result net) tt)
    = [match truthy (projectId result) with
       | None => "Project ID not found"
       | Some _ =>
           match net with
           | Responds status (Some data) =>
               if ok status then
                 "Deployment Instructions:" +:+ nl +:+ nl +:+
                 "Railway: " +:+ railway (instructions data) +:+ nl +:+
                 "Render: " +:+ render (instructions data) +:+ nl +:+
                 "Docker: " +:+ docker (instructions data)
               else
                 "Failed to get deployment instructions. Make sure the backend is running."
           | _ =>
               "Failed to get deployment instructions. Make sure the backend is running."
           end
       end]).
  { run. destruct (truthy (projectId result)); simpl; [|done].
    destruct net as [|status [data|]]; simpl; [done| |]; by destruct (ok status). }
  split; [exact Hfirst|]. split; [exact Hsecond|].
  split; [exact (Hcard _ Hfirst)|exact (Hreport _ Hsecond)].
Qed.

(** Each of the three instructions received is in the text of the alert,
    under its heading. *)
Example deploy_alert_sample :
  alerts (trace_of (ProjectsPage.handleDeploy "book_1"
            (Responds 200 (Some {| instructions :=
               {| railway := "railway up"; render := "render deploy";
                  docker := "docker build ." |} |}))) ProjectsPage.initial)
  = ["Deployment Instructions:" +:+ nl +:+ nl +:+ "Railway:" +:+ nl +:+ "railway up"
       +:+ nl +:+ nl +:+ "Render:" +:+ nl +:+ "render deploy"
       +:+ nl +:+ nl +:+ "Docker:" +:+ nl +:+ "docker build ."].
Proof. reflexivity. Qed.

(** X12. Whenever the report renders the file browser, the browser, the
    Download button and the Deploy button all work on the same project:
    the one request each button sends is for the project being browsed. *)
Theorem report_browser_and_buttons_agree (result : ValidationResult) (project : string)
    (blob : FetchOutcome Blob) (deploy : FetchOutcome DeployResponse)
    (list : FetchOutcome (list FileBrowser.FileInfo)) :
  ValidationReport.browsed_project result = Some project →
  fetches (trace_of (ValidationReport.handleDownload result blob) tt)
    = [download_request project]
  ∧ fetches (trace_of (ValidationReport.handleDeploy result deploy) tt)
    = [deploy_request project]
  ∧ head (fetches (trace_of (FileBrowser.loadFiles project list) FileBrowser.initial))
    = Some (FileBrowser.files_request project).
Proof.
  unfold ValidationReport.browsed_project. intros Hbrowsed.
  destruct (success result); [|done].
  run. rewrite Hbrowsed. simpl. split; [|split].
  - by by_settle.
  - by by_settle.
  - destruct (settle _ list) as [error|[|first rest]]; done.
Qed.

Lemma report_browser_and_buttons_agree_witness :
  ValidationReport.browsed_project (result_of_project "book_1") = Some "book_1"
  ∧ fetches (trace_of (ValidationReport.handleDownload (result_of_project "book_1") Rejects) tt)
    = [download_request "book_1"].
Proof.
  split; [reflexivity|].
  destruct (report_browser_and_buttons_agree (result_of_project "book_1") "book_1"
              Rejects Rejects Rejects eq_refl) as (Hdownload & _).
  exact Hdownload.
Defined.

(** ** Strings: segments and lower case *)

Lemma split_on_not_nil (sep : ascii) (s : string) : split_on sep s ≠ [].
Proof.
  destruct s as [|c s]; simpl; [done|].
  destruct (Ascii.eqb c sep); [done|]. by destruct (split_on sep s).
Qed.

Lemma split_on_app (sep : ascii) (a b : string) :
  split_on sep (a +:+ String sep b) = (split_on sep a ++ split_on sep b)%list.
Proof.
  induction a as [|c a IH]; simpl.
  - by rewrite Ascii.eqb_refl.
  - destruct (Ascii.eqb c sep); [by rewrite IH|].
    rewrite IH. pose proof (split_on_not_nil sep a) as Hne.
    by destruct (split_on sep a).
Qed.

Lemma last_app_not_nil {A} (l1 l2 : list A) (d : A) :
  l2 ≠ [] → List.last (l1 ++ l2) d = List.last l2 d.
Proof.
  intros Hne. induction l1 as [|x l1 IH]; [done|].
  simpl. rewrite IH. destruct (l1 ++ l2)%list eqn:Happ; [|done].
  apply app_eq_nil in Happ as [_ ->]. done.
Qed.

Lemma last_fmap {A B} (f : A → B) (l : list A) (d : A) :
  List.last (f <$> l) (f d) = f (List.last l d).
Proof.
  induction l as [|x l IH]; [done|].
  destruct l as [|y l]; [done|].
  change (List.last (f <$> x :: y :: l) (f d)) with (List.last (f <$> y :: l) (f d)).
  by rewrite IH.
Qed.

Lemma lower_ascii_idemp (c : ascii) : lower_ascii (lower_ascii c) = lower_ascii c.
Proof. destruct c as [[] [] [] [] [] [] [] []]; reflexivity. Qed.

Lemma lower_ascii_dot (c : ascii) :
  Ascii.eqb (lower_ascii c) "."%char = Ascii.eqb c "."%char.
Proof. destruct c as [[] [] [] [] [] [] [] []]; reflexivity. Qed.

Lemma toLowerCase_idemp (s : string) : toLowerCase (toLowerCase s) = toLowerCase s.
Proof.
  induction s as [|c s IH]; simpl; [done|].
  by rewrite lower_ascii_idemp, IH.
Qed.

Lemma split_on_dot_toLowerCase (s : string) :
  split_on "."%char (toLowerCase s) = toLowerCase <$> split_on "."%char s.
Proof.
  induction s as [|c s IH]; simpl; [done|].
  rewrite lower_ascii_dot. destruct (Ascii.eqb c "."%char); simpl; [by rewrite IH|].
  rewrite IH. pose proof (split_on_not_nil "."%char s) as Hne.
  by destruct (split_on "."%char s).
Qed.

(** ** The file browser: the language badge *)

(** X13. Only what follows the last dot counts, and a name without a dot
    counts whole: the extension of [a.b] is the extension of [b] alone, so
    a file named "py" gets the same badge as "main.py". *)
Theorem getFileExtension_after_dot (a b : string) :
  FileBrowser.getFileExtension (a +:+ "." +:+ b) = FileBrowser.getFileExtension b
  ∧ FileBrowser.getLanguageFromExtension (a +:+ "." +:+ b)
    = FileBrowser.getLanguageFromExtension b.
Proof.
  assert (Hext : FileBrowser.getFileExtension (a +:+ "." +:+ b)
                 = FileBrowser.getFileExtension b).
  { unfold FileBrowser.getFileExtension.
    change ("." +:+ b) with (String "."%char b).
    rewrite split_on_app, last_app_not_nil by apply split_on_not_nil. done. }
  split; [done|]. unfold FileBrowser.getLanguageFromExtension. by rewrite Hext.
Qed.

Lemma getFileExtension_toLowerCase (s : string) :
  FileBrowser.getFileExtension (toLowerCase s) = FileBrowser.getFileExtension s.
Proof.
  unfold FileBrowser.getFileExtension.
  rewrite split_on_dot_toLowerCase.
  change EmptyString with (toLowerCase EmptyString) at 1.
  by rewrite last_fmap, toLowerCase_idemp.
Qed.

(** X14. The badge does not depend on the case of the letters: two file
    names that differ only by upper and lower case get the same extension
    and the same language. *)
Theorem language_ignores_case (a b : string) :
  toLowerCase a = toLowerCase b →
  FileBrowser.getFileExtension a = FileBrowser.getFileExtension b
  ∧ FileBrowser.getLanguageFromExtension a = FileBrowser.getLanguageFromExtension b.
Proof.
  intros Hsame.
  assert (Hext : FileBrowser.getFileExtension a = FileBrowser.getFileExtension b).
  { by rewrite <- (getFileExtension_toLowerCase a), Hsame, getFileExtension_toLowerCase. }
  split; [done|]. unfold FileBrowser.getLanguageFromExtension. by rewrite Hext.
Qed.

Lemma language_ignores_case_witness :
  toLowerCase "README.MD" = toLowerCase "readme.md"
  ∧ FileBrowser.getFileExtension "README.MD" = FileBrowser.getFileExtension "readme.md"
  ∧ FileBrowser.getLanguageFromExtension "README.MD"
    = FileBrowser.getLanguageFromExtension "readme.md".
Proof.
  split; [reflexivity|].
  apply (language_ignores_case "README.MD" "readme.md"). reflexivity.
Defined.

Example language_of_samples :
  FileBrowser.getLanguageFromExtension "src/App.TSX" = FileBrowser.Language "typescript"
  ∧ FileBrowser.getLanguageFromExtension "Makefile" = FileBrowser.Language "text"
  ∧ FileBrowser.getLanguageFromExtension "notes." = FileBrowser.Language "text"
  ∧ FileBrowser.getLanguageFromExtension "py" = FileBrowser.Language "python"
  ∧ FileBrowser.getLanguageFromExtension "v1.2/readme" = FileBrowser.Language "text"
  ∧ FileBrowser.getLanguageFromExtension "a.constructor"
    = FileBrowser.Inherited "constructor".
Proof. repeat split; vm_compute; reflexivity. Qed.

(** X15. The badge is one of eight language names, with two exceptions
    that come from reading [languageMap] as a plain object: for the
    extensions "constructor" and "__proto__" what is read is a member of
    [Object.prototype], not a string.  No other inherited member can be
    reached, the extension being in lower case. *)
Theorem language_badge_range (filename : string) :
  match FileBrowser.getLanguageFromExtension filename with
  | FileBrowser.Language language =>
      language ∈ ["python"; "javascript"; "typescript"; "html"; "css"; "json";
                  "markdown"; "text"]
  | FileBrowser.Inherited member =>
      member = FileBrowser.getFileExtension filename
      ∧ member ∈ ["constructor"; "__proto__"]
  end.
Proof.
  unfold FileBrowser.getLanguageFromExtension.
  destruct (FileBrowser.languageMap !! FileBrowser.getFileExtension filename)
    as [language|] eqn:Hlookup.
  - apply elem_of_list_to_map_2 in Hlookup.
    repeat (apply elem_of_cons in Hlookup as [Hlookup|Hlookup];
            [injection Hlookup as _ ->; set_solver|]).
    by apply elem_of_nil in Hlookup.
  - case_bool_decide as Hproto; [|set_solver].
    split; [done|].
    assert (Hlower : toLowerCase (FileBrowser.getFileExtension filename)
                     = FileBrowser.getFileExtension filename)
      by apply toLowerCase_idemp.
    unfold Object_prototype in Hproto.
    repeat (apply elem_of_cons in Hproto as [Hproto|Hproto];
            [rewrite Hproto in Hlower |- *;
             first [discriminate Hlower | set_solver]|]).
    by apply elem_of_nil in Hproto.
Qed.

(** ** The file browser: the tree of folders *)

Lemma add_file_Some (tree : gmap string (list FileBrowser.FileInfo))
    (file : FileBrowser.FileInfo) (tree' : gmap string (list FileBrowser.FileInfo)) :
  FileBrowser.add_file tree file = Some tree' →
  tree' = <[FileBrowser.folder_of file :=
              (default [] (tree !! FileBrowser.folder_of file) ++ [file])%list]> tree.
Proof.
  unfold FileBrowser.add_file.
  destruct (tree !! FileBrowser.folder_of file) as [folderFiles|]; simpl.
  - by intros [= <-].
  - case_bool_decide; [done|]. by intros [= <-].
Qed.

Lemma add_files_lookup (fs : list FileBrowser.FileInfo)
    (tree tree' : gmap string (list FileBrowser.FileInfo)) (folder : string) :
  FileBrowser.add_files tree fs = Some tree' →
  tree' !! folder
  = match filter (λ file, FileBrowser.folder_of file = folder) fs with
    | [] => tree !! folder
    | folderFiles => Some (default [] (tree !! folder) ++ folderFiles)%list
    end.
Proof.
  revert tree. induction fs as [|file fs IH]; intros tree; simpl.
  - by intros [= <-].
  - destruct (FileBrowser.add_file tree file) as [tree1|] eqn:Hadd; [|done].
    intros Hrest. rewrite (IH _ Hrest). apply add_file_Some in Hadd as ->.
    rewrite filter_cons.
    destruct (decide (FileBrowser.folder_of file = folder)) as [<-|Hother].
    + rewrite lookup_insert_eq. simpl.
      destruct (filter _ fs) as [|next others]; [done|].
      by rewrite <- (assoc_L (++)).
    + by rewrite lookup_insert_ne.
Qed.

Lemma add_files_None (fs : list FileBrowser.FileInfo)
    (tree : gmap string (list FileBrowser.FileInfo)) :
  (∀ folder, folder ∈ Object_prototype → tree !! folder = None) →
  FileBrowser.add_files tree fs = None
  ↔ ∃ file, file ∈ fs ∧ FileBrowser.folder_of file ∈ Object_prototype.
Proof.
  revert tree. induction fs as [|file fs IH]; intros tree Hown; simpl.
  - split; [done|]. intros (file & Hin & _). by apply elem_of_nil in Hin.
  - unfold FileBrowser.add_file.
    destruct (tree !! FileBrowser.folder_of file) as [folderFiles|] eqn:Hlookup.
    + assert (Hplain : FileBrowser.folder_of file ∉ Object_prototype).
      { intros Hproto. rewrite (Hown _ Hproto) in Hlookup. done. }
      rewrite IH.
      * split; intros (other & Hin & Hproto); exists other; (split; [|done]);
          [by right|].
        apply elem_of_cons in Hin as [->|Hin]; done.
      * intros folder Hproto. rewrite lookup_insert_ne; [by apply Hown|].
        intros Hsame. apply Hplain. by rewrite Hsame.
    + case_bool_decide as Hproto.
      * split; [|done]. intros _. exists file. split; [by left|done].
      * rewrite IH.
        -- split; intros (other & Hin & Hother); exists other; (split; [|done]);
             [by right|].
           apply elem_of_cons in Hin as [->|Hin]; done.
        -- intros folder Hfolder. rewrite lookup_insert_ne; [by apply Hown|].
           intros Hsame. apply Hproto. by rewrite Hsame.
Qed.

(** X16. Building the tree of folders throws exactly when some file lies
    in a top folder named like a member of [Object.prototype]
    ("constructor", "toString", "__proto__", ...): for any other list of
    files the tree is built. *)
Theorem fileTree_throws_iff (st : FileBrowser.State) :
  FileBrowser.fileTree st = None
  ↔ ∃ file, file ∈ FileBrowser.files st
            ∧ FileBrowser.folder_of file ∈ Object_prototype.
Proof.
  apply add_files_None. intros folder _. apply lookup_empty.
Qed.

(** X17. The tree is a partition of the files by top folder.  A folder is
    in the tree exactly when some file lies in it, and its array holds all
    the files of this folder and no other, in the order of the list; files
    whose path has no "/" are under "root".  Every file is in the array of
    its folder. *)
Theorem fileTree_partition (st : FileBrowser.State)
    (tree : gmap string (list FileBrowser.FileInfo)) :
  FileBrowser.fileTree st = Some tree →
  (∀ folder : string,
     tree !! folder
     = match filter (λ file, FileBrowser.folder_of file = folder) (FileBrowser.files st) with
       | [] => None
       | folderFiles => Some folderFiles
       end)
  ∧ (∀ file, file ∈ FileBrowser.files st →
       ∃ folderFiles, tree !! FileBrowser.folder_of file = Some folderFiles
                      ∧ file ∈ folderFiles).
Proof.
  intros Htree.
  assert (Hlookup : ∀ folder : string,
     tree !! folder
     = match filter (λ file, FileBrowser.folder_of file = folder) (FileBrowser.files st) with
       | [] => None
       | folderFiles => Some folderFiles
       end).
  { intros folder. rewrite (add_files_lookup _ _ _ folder Htree), lookup_empty.
    by destruct (filter _ _). }
  split; [done|]. intros file Hin. rewrite Hlookup.
  assert (Hfiltered :
    file ∈ filter (λ other, FileBrowser.folder_of other = FileBrowser.folder_of file)
             (FileBrowser.files st)) by by apply list_elem_of_filter.
  destruct (filter _ _) as [|first rest]; [by apply elem_of_nil in Hfiltered|].
  by eexists.
Qed.

Lemma fileTree_partition_witness :
  FileBrowser.fileTree two_files
    = Some (<["root" := [main_py]]> (<["src" := [app_py]]> ∅))
  ∧ (<["root" := [main_py]]> (<["src" := [app_py]]> ∅) : gmap string _) !! "src"
    = match filter (λ file, FileBrowser.folder_of file = "src") (FileBrowser.files two_files) with
      | [] => None
      | folderFiles => Some folderFiles
      end.
Proof.
  assert (Htree : FileBrowser.fileTree two_files
                  = Some (<["root" := [main_py]]> (<["src" := [app_py]]> ∅)))
    by (vm_compute; reflexivity).
  split; [exact Htree|].
  destruct (fileTree_partition two_files _ Htree) as (Hfolders & _).
  exact (Hfolders "src").
Defined.

Example fileTree_throws_on_constructor_folder :
  FileBrowser.fileTree
    (state_after
       (FileBrowser.loadFiles "book_1" (Responds 200 (Some
          [main_py;
           {| FileBrowser.name := "x.py"; FileBrowser.path := "constructor/x.py";
              FileBrowser.type := "file"; FileBrowser.size := 1 |}])))
       FileBrowser.initial)
  = None.
Proof. vm_compute. reflexivity. Qed.

(** ** The file browser: loading a file, loading the list *)

(** X18. Once the request for the content of a file has ended, the file
    clicked is the selected one and the viewer no longer says
    "Loading...": it holds the content received when the request
    succeeded, and "Error loading file content" in every other case.  The
    list of files, the loading flag and the expanded folders are not
    touched. *)
Theorem loadFileContent_result (project : string) (st : FileBrowser.State)
    (filePath : string) (net : FetchOutcome FileBrowser.FileContentResponse) :
  state_after (FileBrowser.loadFileContent project filePath net) st
  = {| FileBrowser.files := FileBrowser.files st;
       FileBrowser.selectedFile := Some filePath;
       FileBrowser.fileContent :=
         match net with
         | Responds status (Some data) =>
             if ok status then FileBrowser.content data
             else "Error loading file content"
         | _ => "Error loading file content"
         end;
       FileBrowser.loading := FileBrowser.loading st;
       FileBrowser.expandedFolders := FileBrowser.expandedFolders st |}
  ∧ fetches (trace_of (FileBrowser.loadFileContent project filePath net) st)
    = [FileBrowser.content_request project filePath].
Proof.
  run. destruct net as [|status [data|]]; simpl; [done| |]; by destruct (ok status).
Qed.

(** X19. Answers that arrive out of order are not told apart.  When file
    [a] is clicked, then file [b], and the answer for [a] arrives last,
    the viewer shows the name of [b] over the content of [a], whatever the
    answer for [b] was. *)
Theorem late_answer_overwrites_content (project : string) (st : FileBrowser.State)
    (a b : string) (answer_b : FetchOutcome FileBrowser.FileContentResponse)
    (status : Z) (content_a : FileBrowser.FileContentResponse) :
  ok status = true →
  FileBrowser.selectedFile
    (state_after
       (FileBrowser.loadFileContent_begin project a ;;
        FileBrowser.loadFileContent_begin project b ;;
        FileBrowser.loadFileContent_resume answer_b ;;
        FileBrowser.loadFileContent_resume (Responds status (Some content_a))) st)
  = Some b
  ∧ FileBrowser.fileContent
      (state_after
         (FileBrowser.loadFileContent_begin project a ;;
          FileBrowser.loadFileContent_begin project b ;;
          FileBrowser.loadFileContent_resume answer_b ;;
          FileBrowser.loadFileContent_resume (Responds status (Some content_a))) st)
    = FileBrowser.content content_a.
Proof.
  intros Hok. run. rewrite Hok. by by_settle.
Qed.

Lemma late_answer_overwrites_content_witness :
  ok 200 = true
  ∧ FileBrowser.viewer
      (state_after
         (FileBrowser.loadFileContent_begin "book_1" "main.py" ;;
          FileBrowser.loadFileContent_begin "book_1" "src/app.py" ;;
          FileBrowser.loadFileContent_resume (Responds 200 (Some
            {| FileBrowser.content := "import flask" |})) ;;
          FileBrowser.loadFileContent_resume (Responds 200 (Some print_py))) two_files)
    = FileBrowser.FileView "src/app.py" "print(1)".
Proof.
  split; [reflexivity|].
  destruct (late_answer_overwrites_content "book_1" two_files "main.py" "src/app.py"
              (Responds 200 (Some {| FileBrowser.content := "import flask" |}))
              200%Z print_py eq_refl) as [Hselected Hcontent].
  unfold FileBrowser.viewer. rewrite Hselected, Hcontent. reflexivity.
Defined.

(** X20. A load of the list of files that does not succeed changes
    nothing but the loading flag: the files and the selection are kept and
    the loading card goes away.  On the first load after the browser is
    mounted the browser then shows no file and the placeholder, exactly
    what it shows for a project that has no file. *)
Theorem loadFiles_unsuccessful (project : string) (st : FileBrowser.State)
    (net : FetchOutcome (list FileBrowser.FileInfo)) (status : Z) :
  succeeded net = false →
  ok status = true →
  state_after (FileBrowser.loadFiles project net) st
    = state_after (FileBrowser.setLoading false) st
  ∧ fetches (trace_of (FileBrowser.loadFiles project net) st)
    = [FileBrowser.files_request project]
  ∧ FileBrowser.render (state_after (FileBrowser.loadFiles project net) FileBrowser.initial)
    = FileBrowser.Browser {["root"]}
        (FileBrowser.Placeholder "Select a file to view its contents")
  ∧ state_after (FileBrowser.loadFiles project net) FileBrowser.initial
    = state_after (FileBrowser.loadFiles project (Responds status (Some [])))
        FileBrowser.initial.
Proof.
  intros Hnot Hok. unfold FileBrowser.render, FileBrowser.viewer. run. rewrite Hok.
  by_unsuccessful Hnot. done.
Qed.

Lemma loadFiles_unsuccessful_witness :
  succeeded (Responds 404 (@None (list FileBrowser.FileInfo))) = false
  ∧ ok 200 = true
  ∧ state_after (FileBrowser.loadFiles "book_1" (Responds 404 None)) FileBrowser.initial
    = state_after (FileBrowser.loadFiles "book_1" (Responds 200 (Some [])))
        FileBrowser.initial.
Proof.
  split; [reflexivity|]. split; [reflexivity|].
  destruct (loadFiles_unsuccessful "book_1" FileBrowser.initial (Responds 404 None) 200%Z
              eq_refl eq_refl) as (_ & _ & _ & Hsame).
  exact Hsame.
Defined.

(** X21. Expanding and collapsing folders only changes which folders are
    expanded: the state after a toggle is the state before it with the
    folder added to or removed from [expandedFolders], every other part of
    it (the files, the selection, the content, the loading flag) being the
    same, and no effect is performed; so what the viewer shows stays as it
    is.  Toggling two folders gives the same state in either order. *)
Theorem toggleFolder_frame_and_commute (f g : string) (st : FileBrowser.State) :
  state_after (FileBrowser.toggleFolder f) st
    = {| FileBrowser.files := FileBrowser.files st;
         FileBrowser.selectedFile := FileBrowser.selectedFile st;
         FileBrowser.fileContent := FileBrowser.fileContent st;
         FileBrowser.loading := FileBrowser.loading st;
         FileBrowser.expandedFolders :=
           if decide (f ∈ FileBrowser.expandedFolders st)
           then FileBrowser.expandedFolders st ∖ {[f]}
           else FileBrowser.expandedFolders st ∪ {[f]} |}
  ∧ trace_of (FileBrowser.toggleFolder f) st = []
  ∧ FileBrowser.files (state_after (FileBrowser.toggleFolder f) st) = FileBrowser.files st
  ∧ FileBrowser.selectedFile (state_after (FileBrowser.toggleFolder f) st)
    = FileBrowser.selectedFile st
  ∧ FileBrowser.viewer (state_after (FileBrowser.toggleFolder f) st) = FileBrowser.viewer st
  ∧ state_after (FileBrowser.toggleFolder f ;; FileBrowser.toggleFolder g) st
    = state_after (FileBrowser.toggleFolder g ;; FileBrowser.toggleFolder f) st.
Proof.
  do 5 (split; [done|]).
  destruct st as [fs sel code busy expanded]. run. f_equal.
  destruct (decide (f = g)) as [->|Hfg]; [done|].
  destruct (decide (f ∈ expanded)) as [Hf|Hf];
    destruct (decide (g ∈ expanded)) as [Hg|Hg].
  - rewrite (decide_True (P := g ∈ expanded ∖ {[f]})) by set_solver.
    rewrite (decide_True (P := f ∈ expanded ∖ {[g]})) by set_solver. set_solver.
  - rewrite (decide_False (P := g ∈ expanded ∖ {[f]})) by set_solver.
    rewrite (decide_True (P := f ∈ expanded ∪ {[g]})) by set_solver. set_solver.
  - rewrite (decide_True (P := g ∈ expanded ∪ {[f]})) by set_solver.
    rewrite (decide_False (P := f ∈ expanded ∖ {[g]})) by set_solver. set_solver.
  - rewrite (decide_False (P := g ∈ expanded ∪ {[f]})) by set_solver.
    rewrite (decide_False (P := f ∈ expanded ∪ {[g]})) by set_solver. set_solver.
Qed.

(** ** The file browser: what the left card lists *)

(** X22. The file selected automatically can be out of sight.  On the
    first load only the folder "root" is expanded.  When the list of files
    is one for which the tree builds and its first file lies in another
    folder than "root", this file is selected and its content requested,
    yet the left card shows no button for it: the card shows the header of
    its folder, collapsed, and buttons for the files of "root" only. *)
Theorem first_file_selected_but_not_listed (project : string) (status : Z)
    (first : FileBrowser.FileInfo) (rest : list FileBrowser.FileInfo)
    (tree : gmap string (list FileBrowser.FileInfo)) :
  ok status = true →
  FileBrowser.folder_of first ≠ "root" →
  FileBrowser.fileTree
    (state_after (FileBrowser.loadFiles project (Responds status (Some (first :: rest))))
       FileBrowser.initial)
  = Some tree →
  FileBrowser.selectedFile
    (state_after (FileBrowser.loadFiles project (Responds status (Some (first :: rest))))
       FileBrowser.initial)
  = Some (FileBrowser.path first)
  ∧ fetches (trace_of
      (FileBrowser.loadFiles project (Responds status (Some (first :: rest))))
      FileBrowser.initial)
    = [FileBrowser.files_request project;
       FileBrowser.content_request project (FileBrowser.path first)]
  ∧ ∃ buttons : gmap string (list FileBrowser.FileInfo),
      FileBrowser.left_card
        (state_after (FileBrowser.loadFiles project (Responds status (Some (first :: rest))))
           FileBrowser.initial)
      = FileBrowser.Folders (dom tree) buttons
      ∧ FileBrowser.folder_of first ∈ dom tree
      ∧ buttons !! FileBrowser.folder_of first = None
      ∧ (∀ folder : string,
           buttons !! folder
           = if decide (folder = "root")
             then match filter (λ file, FileBrowser.folder_of file = "root") rest with
                  | [] => None
                  | rootFiles => Some rootFiles
                  end
             else None)
      ∧ (∀ (folder : string) (folderFiles : list FileBrowser.FileInfo),
           buttons !! folder = Some folderFiles → first ∉ folderFiles).
Proof.
  intros Hok Hfolder.
  assert (Hstate :
    state_after (FileBrowser.loadFiles project (Responds status (Some (first :: rest))))
      FileBrowser.initial
    = {| FileBrowser.files := first :: rest;
         FileBrowser.selectedFile := Some (FileBrowser.path first);
         FileBrowser.fileContent := "Loading...";
         FileBrowser.loading := false;
         FileBrowser.expandedFolders := {["root"]} |}).
  { run. by rewrite Hok. }
  rewrite Hstate. intros Htree.
  assert (Hlookup : ∀ folder : string,
    tree !! folder
    = match filter (λ file, FileBrowser.folder_of file = folder) (first :: rest) with
      | [] => None
      | folderFiles => Some folderFiles
      end).
  { intros folder.
    change (FileBrowser.add_files ∅ (first :: rest) = Some tree) in Htree.
    rewrite (add_files_lookup _ _ _ folder Htree), lookup_empty.
    by destruct (filter _ _). }
  assert (Hbuttons : ∀ folder : string,
    filter (λ entry : string * list FileBrowser.FileInfo, entry.1 ∈ ({["root"]} : gset string))
      tree !! folder
    = if decide (folder = "root")
      then match filter (λ file, FileBrowser.folder_of file = "root") rest with
           | [] => None
           | rootFiles => Some rootFiles
           end
      else None).
  { intros folder. rewrite map_lookup_filter, Hlookup.
    destruct (decide (folder = "root")) as [->|Hother].
    - rewrite filter_cons_False by done.
      destruct (filter _ rest) as [|file files]; [done|].
      simpl. by rewrite option_guard_True by set_solver.
    - destruct (filter _ (first :: rest)) as [|file files]; [done|].
      simpl. by rewrite option_guard_False by set_solver. }
  split; [done|]. split; [run; by rewrite Hok|].
  eexists. unfold FileBrowser.left_card. rewrite Htree. simpl.
  split; [reflexivity|]. split; [|split; [|split]].
  - apply elem_of_dom. rewrite Hlookup, filter_cons_True by done. by eexists.
  - rewrite Hbuttons. by rewrite decide_False.
  - exact Hbuttons.
  - intros folder folderFiles. rewrite Hbuttons.
    destruct (decide (folder = "root")) as [->|Hother]; [|done].
    destruct (filter _ rest) as [|file files] eqn:Hroot; [done|].
    intros [= <-] Hin. rewrite <- Hroot in Hin.
    apply list_elem_of_filter in Hin as [Hroot' _]. done.
Qed.

Lemma first_file_selected_but_not_listed_witness :
  ok 200 = true
  ∧ FileBrowser.folder_of app_py ≠ "root"
  ∧ FileBrowser.fileTree two_files
    = Some (<["root" := [main_py]]> (<["src" := [app_py]]> ∅))
  ∧ FileBrowser.selectedFile two_files = Some "src/app.py"
  ∧ ∃ buttons : gmap string (list FileBrowser.FileInfo),
      FileBrowser.left_card two_files
      = FileBrowser.Folders (dom (<["root" := [main_py]]> (<["src" := [app_py]]> ∅) :
                                    gmap string (list FileBrowser.FileInfo))) buttons
      ∧ buttons !! "src" = None
      ∧ buttons !! "root" = Some [main_py].
Proof.
  assert (Hfolder : FileBrowser.folder_of app_py ≠ "root") by discriminate.
  assert (Htree : FileBrowser.fileTree two_files
                  = Some (<["root" := [main_py]]> (<["src" := [app_py]]> ∅)))
    by (vm_compute; reflexivity).
  split; [reflexivity|]. split; [exact Hfolder|]. split; [exact Htree|].
  destruct (first_file_selected_but_not_listed "book_1" 200%Z app_py [main_py] _
              eq_refl Hfolder Htree)
    as (Hselected & _ & buttons & Hcard & _ & Hhidden & Hroot & _).
  split; [exact Hselected|].
  exists buttons. split; [exact Hcard|]. split; [exact Hhidden|].
  exact (Hroot "root").
Defined.

(** In the states in which the card shows its tree, the files with a
    button are those of [listed]. *)
Lemma left_card_listed (st : FileBrowser.State)
    (tree : gmap string (list FileBrowser.FileInfo)) (file : FileBrowser.FileInfo) :
  FileBrowser.fileTree st = Some tree →
  FileBrowser.loading st = false →
  file ∈ FileBrowser.listed st
  ↔ ∃ (buttons : gmap string (list FileBrowser.FileInfo)) (folder : string)
      (folderFiles : list FileBrowser.FileInfo),
      FileBrowser.left_card st = FileBrowser.Folders (dom tree) buttons
      ∧ buttons !! folder = Some folderFiles ∧ file ∈ folderFiles.
Proof.
  intros Htree Hloaded. unfold FileBrowser.left_card, FileBrowser.listed.
  rewrite Htree, Hloaded.
  assert (Hlookup : ∀ folder : string,
    tree !! folder
    = match filter (λ other, FileBrowser.folder_of other = folder) (FileBrowser.files st) with
      | [] => None
      | folderFiles => Some folderFiles
      end).
  { intros folder. rewrite (add_files_lookup _ _ _ folder Htree), lookup_empty.
    by destruct (filter _ _). }
  rewrite list_elem_of_filter. split.
  - intros [Hexpanded Hin].
    assert (Hfiltered :
      file ∈ filter (λ other, FileBrowser.folder_of other = FileBrowser.folder_of file)
               (FileBrowser.files st)) by by apply list_elem_of_filter.
    eexists _, (FileBrowser.folder_of file), _. split; [reflexivity|].
    split; [|exact Hfiltered].
    apply map_lookup_filter_Some. split; [|done].
    rewrite Hlookup. destruct (filter _ _); [by apply elem_of_nil in Hfiltered|done].
  - intros (buttons & folder & folderFiles & [= <-] & Hsome & Hin).
    apply map_lookup_filter_Some in Hsome as [Hsome Hexpanded]. simpl in Hexpanded.
    rewrite Hlookup in Hsome.
    destruct (filter _ _) as [|other others] eqn:Hfiltered; [done|].
    injection Hsome as <-. rewrite <- Hfiltered in Hin.
    apply list_elem_of_filter in Hin as [-> Hin]. done.
Qed.

(** X23. Toggling a folder changes the listing of the files of that folder
    and of no other: a file of the list has a button after the toggle
    exactly when it is in the toggled folder and had none, or is in another
    folder and had one. *)
Theorem toggleFolder_listed (folder : string) (st : FileBrowser.State)
    (file : FileBrowser.FileInfo) :
  file ∈ FileBrowser.files st →
  file ∈ FileBrowser.listed (state_after (FileBrowser.toggleFolder folder) st)
  ↔ (if decide (FileBrowser.folder_of file = folder)
     then file ∉ FileBrowser.listed st
     else file ∈ FileBrowser.listed st).
Proof.
  intros Hin. unfold FileBrowser.listed.
  rewrite expandedFolders_toggleFolder.
  change (FileBrowser.files (state_after (FileBrowser.toggleFolder folder) st))
    with (FileBrowser.files st).
  destruct (decide (FileBrowser.folder_of file = folder)) as [Hsame|Hother];
    destruct (decide (folder ∈ FileBrowser.expandedFolders st));
    rewrite !list_elem_of_filter; set_solver.
Qed.

Lemma toggleFolder_listed_witness :
  app_py ∈ FileBrowser.files two_files
  ∧ (app_py ∈ FileBrowser.listed (state_after (FileBrowser.toggleFolder "src") two_files)
     ↔ (if decide (FileBrowser.folder_of app_py = "src")
        then app_py ∉ FileBrowser.listed two_files
        else app_py ∈ FileBrowser.listed two_files)).
Proof.
  assert (Hin : app_py ∈ FileBrowser.files two_files) by (simpl; left).
  split; [exact Hin|].
  exact (toggleFolder_listed "src" two_files app_py Hin).
Defined.

(** ** Where the requests go *)

(** X24. The frontend only ever talks to the backend on the local
    machine: every request sent by any handler of the wizard, of the
    projects page, of the report and of the file browser, for every input
    and every outcome, has a URL under http://localhost:8000/api/. *)
Theorem requests_go_to_backend :
  (∀ (a : Page.Action) (net : FetchOutcome (Page.Reply a)) (st : Page.State),
     to_backend (trace_of (Page.perform a net) st))
  ∧ (∀ (net : FetchOutcome ProjectsPage.ProjectsResponse) (st : ProjectsPage.State),
     to_backend (trace_of (ProjectsPage.loadProjects net) st))
  ∧ (∀ (project : string) (net : FetchOutcome Blob) (st : ProjectsPage.State),
     to_backend (trace_of (ProjectsPage.handleDownload project net) st))
  ∧ (∀ (project : string) (net : FetchOutcome DeployResponse) (st : ProjectsPage.State),
     to_backend (trace_of (ProjectsPage.handleDeploy project net) st))
  ∧ (∀ (result : ValidationResult) (net : FetchOutcome Blob),
     to_backend (trace_of (ValidationReport.handleDownload result net) tt))
  ∧ (∀ (result : ValidationResult) (net : FetchOutcome DeployResponse),
     to_backend (trace_of (ValidationReport.handleDeploy result net) tt))
  ∧ (∀ (project : string) (net : FetchOutcome (list FileBrowser.FileInfo))
       (st : FileBrowser.State),
     to_backend (trace_of (FileBrowser.loadFiles project net) st))
  ∧ (∀ (project filePath : string) (net : FetchOutcome FileBrowser.FileContentResponse)
       (st : FileBrowser.State),
     to_backend (trace_of (FileBrowser.loadFileContent project filePath net) st)).
Proof.
  unfold to_backend. repeat apply conj.
  - intros a net st. destruct a as [p params|feedback|]; simpl in net; run;
      try (destruct (Page.schema st); simpl; [|constructor]);
      by_settle; by repeat constructor.
  - intros net st. run. by_settle; by repeat constructor.
  - intros project net st. run. by_settle; by repeat constructor.
  - intros project net st. run. by_settle; by repeat constructor.
  - intros result net. run. destruct (truthy (projectId result)); simpl; [|constructor].
    by_settle; by repeat constructor.
  - intros result net. run. destruct (truthy (projectId result)); simpl; [|constructor].
    by_settle; by repeat constructor.
  - intros project net st. run.
    destruct (settle _ net) as [error|[|first rest]]; simpl; by repeat constructor.
  - intros project filePath net st. run. by_settle; by repeat constructor.
Qed.

(** ** The wizard: two calls that overlap *)

(** X25. [isGenerating] is a flag, not a count of pending requests.  When
    a second action is called before the request of a first one has ended
    (the handlers themselves do not look at the flag), two requests are
    sent, and as soon as the first one ends, however it ends, the flag is
    false although the second request is still pending. *)
Theorem flag_is_not_a_counter (a b : Page.Action) (st : Page.State)
    (net : FetchOutcome (Page.Reply a)) :
  is_Some (Page.schema st) →
  List.length (fetches (trace_of
     (Page.react_all [Page.Called a; Page.Called b; Page.Ended a net]) st)) = 2
  ∧ Page.isGenerating (state_after
     (Page.react_all [Page.Called a; Page.Called b]) st) = true
  ∧ Page.isGenerating (state_after
     (Page.react_all [Page.Called a; Page.Called b; Page.Ended a net]) st) = false.
Proof.
  intros [current Hcur].
  destruct a as [p params|feedback|]; destruct b as [p' params'|feedback'|];
    simpl in net; cbv [Page.react_all Page.react]; run; rewrite ?Hcur; simpl;
    rewrite ?Hcur; simpl; by by_settle.
Qed.

Lemma flag_is_not_a_counter_witness :
  is_Some (Page.schema editing)
  ∧ Page.isGenerating (state_after
      (Page.react_all [Page.Called (Page.RefineSchema "add the year");
                       Page.Called Page.GenerateApp;
                       Page.Ended (Page.RefineSchema "add the year") Rejects]) editing)
    = false.
Proof.
  assert (Hschema : is_Some (Page.schema editing)) by (by eexists).
  split; [exact Hschema|].
  destruct (flag_is_not_a_counter (Page.RefineSchema "add the year") Page.GenerateApp
              editing Rejects Hschema) as (_ & _ & Hflag).
  exact Hflag.
Defined.
